(** * Printer-service-NODE: the POST /print handler of [index.js]

    A shallow embedding of the request handler that dispatches a print job
    to the OS spooler (pdf-to-printer), to a raw TCP socket on port 9100, or
    to an IPP endpoint, together with the properties of its specification.

    Conventions of the embedding:
    - a JavaScript string is a [string] of 8-bit characters, a [Buffer] is a
      [list byte];
    - a field of the JSON body is a [jsval];
    - [mkdirSync] and [writeFileSync] succeed, [unlinkSync] succeeds or
      throws as the [env] record says, paths are joined with [/];
    - the outside world (clock, node-fetch, pdf-to-printer, the socket, the
      IPP printer) answers through the oracles of an [env] record;
    - every effect of the handler is appended to a trace of [event]s and the
      [tmp] directory is a finite map from paths to file contents;
    - the key check and the routes GET /printers and GET / are in the module
      [Server]; a request reaches them after the CORS and body-parser
      middleware, with the route the router selects. *)

From Stdlib Require Import ZArith NArith Ascii String List Lia.
From Stdlib.Strings Require Import Byte.
From stdpp Require Import base option gmap strings pretty list.

Local Open Scope string_scope.
Local Open Scope list_scope.

(** ** JavaScript values carried by the request body *)

Module Js.

(** A field of the parsed JSON body: absent, [null], a boolean, a number,
    an object or array, or a string. A number, like an object, is kept as
    the text [ToString] gives it: the handler only tests a number and prints
    it, and zero (of either sign) is the number printed as [0]. *)
Inductive jsval : Type :=
| JUndefined
| JNull
| JBool (b : bool)
| JNum (text : string)
| JObj (text : string)
| JStr (s : string).

(** [ToBoolean]: what [if (v)] and [!v] test. *)
Definition truthy (v : jsval) : bool :=
  match v with
  | JUndefined | JNull => false
  | JBool b => b
  | JNum text => negb (String.eqb text "0" || String.eqb text "NaN")
  | JObj _ => true
  | JStr s => negb (String.eqb s "")
  end.

(** [ToString], as used by a template literal. *)
Definition to_string (v : jsval) : string :=
  match v with
  | JUndefined => "undefined"
  | JNull => "null"
  | JBool true => "true"
  | JBool false => "false"
  | JNum text => text
  | JObj text => text
  | JStr s => s
  end.

(** [v === "lit"]. *)
Definition strict_eq_str (v : jsval) (lit : string) : bool :=
  match v with
  | JStr s => String.eqb s lit
  | _ => false
  end.

(** Destructuring default [{ x = d }]: the default applies to [undefined] only. *)
Definition with_default (v : jsval) (d : jsval) : jsval :=
  match v with
  | JUndefined => d
  | _ => v
  end.

End Js.
Export Js.

(** ** Regular expressions of the handler *)

Module Regex.

(** Line terminators, the characters [.] does not match. *)
Definition is_line_terminator (c : ascii) : bool :=
  Ascii.eqb c "010" || Ascii.eqb c "013".

(** [true] when "any characters, then the end of input" matches the whole
    of [s]: no line terminator occurs in it. *)
Fixpoint dot_star_to_end (s : string) : bool :=
  match s with
  | EmptyString => true
  | String c s' => negb (is_line_terminator c) && dot_star_to_end s'
  end.

(** Match the literal [lit] at the head of [s]; the rest of [s] on success. *)
Fixpoint strip_literal (lit s : string) : option string :=
  match lit, s with
  | EmptyString, _ => Some s
  | String a lit', String b s' =>
      if Ascii.eqb a b then strip_literal lit' s' else None
  | String _ _, EmptyString => None
  end.

(** The literal [lit], a captured run of any characters and the end of
    input, tried at the head of [s]: the capture group. *)
Definition literal_then_rest (lit s : string) : option string :=
  match strip_literal lit s with
  | Some rest => if dot_star_to_end rest then Some rest else None
  | None => None
  end.

(** [fileBase64.match] with the pattern "base64," + capture-to-end: the
    search tries every start position from the left; the result is capture
    group 1 of the first position that matches. *)
Fixpoint match_base64 (s : string) : option string :=
  match literal_then_rest "base64," s with
  | Some body => Some body
  | None =>
      match s with
      | EmptyString => None
      | String _ s' => match_base64 s'
      end
  end.

(** Any characters, then ";base64," + capture-to-end, at the head of [s]:
    the first run is greedy, so the longer prefix is tried before the
    shorter one. *)
Fixpoint greedy_then_base64 (s : string) : option string :=
  match s with
  | EmptyString => literal_then_rest ";base64," s
  | String c s' =>
      if is_line_terminator c then literal_then_rest ";base64," s
      else
        match greedy_then_base64 s' with
        | Some body => Some body
        | None => literal_then_rest ";base64," s
        end
  end.

(** [raw.match] with the pattern anchored at the start: "data:", any
    characters, ";base64," + capture-to-end; capture group 1. *)
Definition match_data_url (s : string) : option string :=
  match strip_literal "data:" s with
  | Some rest => greedy_then_base64 rest
  | None => None
  end.

End Regex.
Export Regex.

(** ** [Buffer.from(s, "base64")] and [buf.toString("base64")] *)

Module Base64.

Definition alphabet : string :=
  "ABCDEFGHIJKLMNOPQRSTUVWXYZabcdefghijklmnopqrstuvwxyz0123456789+/".

(** The character of a six-bit value. *)
Definition b64char (v : N) : ascii :=
  match String.get (N.to_nat v) alphabet with
  | Some c => c
  | None => "="%char
  end.

(** The six-bit value of a character; Node reads both the standard and the
    URL-safe alphabet. *)
Definition unbase64 (c : ascii) : option N :=
  let n := N_of_ascii c in
  if (65 <=? n)%N && (n <=? 90)%N then Some (n - 65)%N
  else if (97 <=? n)%N && (n <=? 122)%N then Some (n - 71)%N
  else if (48 <=? n)%N && (n <=? 57)%N then Some (n + 4)%N
  else if (n =? 43)%N || (n =? 45)%N then Some 62%N
  else if (n =? 47)%N || (n =? 95)%N then Some 63%N
  else None.

(** Node's decoder is lenient: a character outside the alphabet is skipped
    and the first [=] ends the input. *)
Fixpoint sextets (s : string) : list N :=
  match s with
  | EmptyString => []
  | String c s' =>
      if Ascii.eqb c "=" then []
      else
        match unbase64 c with
        | Some v => v :: sextets s'
        | None => sextets s'
        end
  end.

Definition byte_of_N (n : N) : byte :=
  match Byte.of_N n with
  | Some b => b
  | None => x00
  end.

Definition pack1 (a b : N) : byte := byte_of_N ((a * 4) mod 256 + b / 16).
Definition pack2 (b c : N) : byte := byte_of_N ((b * 16) mod 256 + c / 4).
Definition pack3 (c d : N) : byte := byte_of_N ((c * 64) mod 256 + d).

(** Four six-bit values make three bytes; a trailing group of two or three
    values makes one or two bytes, a single trailing value is dropped. *)
Fixpoint pack (vs : list N) : list byte :=
  match vs with
  | a :: b :: c :: d :: rest => pack1 a b :: pack2 b c :: pack3 c d :: pack rest
  | [a; b; c] => [pack1 a b; pack2 b c]
  | [a; b] => [pack1 a b]
  | _ => []
  end.

(** [Buffer.from(s, "base64")]: total, it never throws. *)
Definition buffer_from_base64 (s : string) : list byte :=
  pack (sextets s).

Definition enc1 (x : byte) : ascii := b64char (Byte.to_N x / 4).
Definition enc2 (x y : byte) : ascii :=
  b64char ((Byte.to_N x mod 4) * 16 + Byte.to_N y / 16).
Definition enc3 (y z : byte) : ascii :=
  b64char ((Byte.to_N y mod 16) * 4 + Byte.to_N z / 64).
Definition enc4 (z : byte) : ascii := b64char (Byte.to_N z mod 64).

(** [buf.toString("base64")]: the standard alphabet with [=] padding. *)
Fixpoint to_base64 (bs : list byte) : string :=
  match bs with
  | [] => ""
  | [x] => String (enc1 x) (String (enc2 x x00) "==")
  | [x; y] => String (enc1 x) (String (enc2 x y) (String (enc3 y x00) "="))
  | x :: y :: z :: rest =>
      String (enc1 x) (String (enc2 x y) (String (enc3 y z)
        (String (enc4 z) (to_base64 rest))))
  end.

End Base64.
Export Base64.

(** ** The world of the handler *)

(** What [client.write] receives: a [Buffer] or the string itself. *)
Inductive chunk : Type :=
| ChunkBuffer (data : list byte)
| ChunkString (text : string).

(** The message passed to [printer.execute]. *)
Record ipp_message : Type := IppMessage {
  requesting_user_name : string;
  job_name : string;
  document_format : string;
  data : list byte
}.

(** One entry per effect, in the order the handler performs them. *)
Inductive event : Type :=
| EvFetch (url : jsval)
| EvMkdir (dir : string)
| EvWriteFile (path : string) (content : list byte)
| EvPrint (path : string) (printer : option jsval)
| EvUnlink (path : string)
| EvSocketConnect (port : Z) (host : jsval)
| EvSocketWrite (c : chunk)
| EvSocketEnd
| EvIppExecute (url : string) (operation : string) (msg : ipp_message)
| EvConsoleError (msg : string).

Record world : Type := World {
  files : gmap string (list byte);
  dirs : gset string;
  trace : list event
}.

(** How an awaited promise ends: with a value; rejected with an [Error]
    (or any object with a [message]), given by its message; rejected with a
    value that has no [message], a string as pdf-to-printer throws them,
    given by its text; or never. The libraries do not reject with [null] or
    [undefined], and the IPP callback rejects only with a truthy [err]. *)
Inductive settled (A : Type) : Type :=
| Fulfilled (a : A)
| Rejected (msg : string)
| RejectedValue (text : string)
| Forever.
Arguments Fulfilled {A} a.
Arguments Rejected {A} msg.
Arguments RejectedValue {A} text.
Arguments Forever {A}.

(** The response object of node-fetch. *)
Record fetch_response : Type := FetchResponse {
  ok : bool;
  statusText : string;
  buffer : settled (list byte)
}.

(** Events the socket emits, in order of arrival. *)
Inductive socket_event : Type :=
| SockConnect
| SockClose
| SockError (msg : string).

(** The environment of one request: the directory of the script, the
    reading of the clock (a time value, an integer that a template literal
    prints in full), the answers of the libraries, the events of the socket
    opened to a host, and whether [fs.unlinkSync] succeeds on a path. *)
Record env : Type := Env {
  dirname : string;
  date_now : Z;
  fetch : jsval -> settled fetch_response;
  pdf_print : string -> option jsval -> settled unit;
  socket_events : jsval -> list socket_event;
  ipp_execute : string -> string -> ipp_message -> settled unit;
  unlink_ok : string -> bool
}.

Module Res.
(** The JSON answer together with its HTTP status. *)
Record t : Type := Make {
  status : Z;
  success : bool;
  mode : option string;
  message : option string;
  error : option string
}.
End Res.

(** [req.body] after destructuring. *)
Record body : Type := Body {
  mode : jsval;
  printerName : jsval;
  printerIp : jsval;
  fileUrl : jsval;
  fileBase64 : jsval;
  raw : jsval
}.

(** What a request ends in: a response, an awaited promise that never
    settles, or an exception nothing catches. *)
Inductive outcome : Type :=
| Responded (r : Res.t)
| NoResponse
| Uncaught (msg : string).

(** ** Control flow of the [async] handler *)

Inductive step (A : Type) : Type :=
| Next (a : A)
| Return (r : Res.t)
| Throw (msg : string)
| ThrowValue (text : string)
| Hang
| Die (msg : string).
Arguments Next {A} a.
Arguments Return {A} r.
Arguments Throw {A} msg.
Arguments ThrowValue {A} text.
Arguments Hang {A}.
Arguments Die {A} msg.

(** A piece of the handler: it changes the world and either goes on with a
    value, returns a response, throws an [Error] with a message, throws a
    value without a message, waits for ever, or dies with an exception
    raised outside the [try]. *)
Definition M (A : Type) : Type := world -> step A * world.

Definition ret {A} (a : A) : M A := fun w => (Next a, w).

Definition bind {A B} (m : M A) (k : A -> M B) : M B :=
  fun w =>
    match m w with
    | (Next a, w') => k a w'
    | (Return r, w') => (Return r, w')
    | (Throw msg, w') => (Throw msg, w')
    | (ThrowValue text, w') => (ThrowValue text, w')
    | (Hang, w') => (Hang, w')
    | (Die msg, w') => (Die msg, w')
    end.

Notation "x <- c ;; k" := (bind c (fun x => k))
  (at level 100, c at next level, right associativity).
Notation "c ;;; k" := (bind c (fun _ => k))
  (at level 100, right associativity).

Definition return_ {A} (r : Res.t) : M A := fun w => (Return r, w).
Definition throw {A} (msg : string) : M A := fun w => (Throw msg, w).

Definition emit (ev : event) : M unit :=
  fun w => (Next tt, World (files w) (dirs w) (trace w ++ [ev])).

Definition await {A} (p : settled A) : M A :=
  fun w =>
    match p with
    | Fulfilled a => (Next a, w)
    | Rejected msg => (Throw msg, w)
    | RejectedValue text => (ThrowValue text, w)
    | Forever => (Hang, w)
    end.

(** [res.status(400).json({ success: false, error })]. *)
Definition bad_request (msg : string) : Res.t :=
  Res.Make 400 false None None (Some msg).

(** [res.status(500).json({ success: false, error: err.message })] for an
    error with the message [msg]. *)
Definition server_error (msg : string) : Res.t :=
  Res.Make 500 false None None (Some msg).

(** The same answer when [err.message] is [undefined]: the JSON body has no
    [error] field. *)
Definition server_error_without_message : Res.t :=
  Res.Make 500 false None None None.

(** [res.json({ success: true, mode, message })]. *)
Definition sent (mode message : string) : Res.t :=
  Res.Make 200 true (Some mode) (Some message) None.

(** ** File system calls *)

(** [path.dirname(filePath)]: the [tmp] directory next to the script. *)
Definition tmp_dir (e : env) : string := dirname e +:+ "/tmp".

(** [path.join(__dirname, "tmp", `print-${Date.now()}.pdf`)], lines 88 and
    98: the name is made from the clock reading of the request. *)
Definition tmp_path (e : env) : string :=
  tmp_dir e +:+ "/print-" +:+ pretty (date_now e) +:+ ".pdf".

(** [fs.mkdirSync(dir, { recursive: true })]. *)
Definition mkdirSync (dir : string) : M unit :=
  fun w => (Next tt, World (files w) ({[dir]} ∪ dirs w) (trace w ++ [EvMkdir dir])).

(** [fs.writeFileSync(path, buffer)]: creates the file or replaces its
    content. *)
Definition writeFileSync (path : string) (content : list byte) : M unit :=
  fun w =>
    (Next tt,
     World (<[path := content]> (files w)) (dirs w)
           (trace w ++ [EvWriteFile path content])).

(** [try { fs.unlinkSync(path) } catch (e) { /* ignore */ }], lines 110 to
    114: the file is removed when the call succeeds; when it throws, the
    error is ignored and the file stays. *)
Definition unlinkSync (e : env) (path : string) : M unit :=
  fun w =>
    (Next tt,
     World (if unlink_ok e path then delete path (files w) else files w)
           (dirs w) (trace w ++ [EvUnlink path])).

(** ** Calls into the libraries *)

(** [v.match(re)] on a field of the body: a value that is not a string has
    no [match] method and the call throws a [TypeError]. *)
Definition js_match (name : string) (re : string -> option string) (v : jsval)
  : M (option string) :=
  match v with
  | JStr s => ret (re s)
  | _ => throw (name +:+ ".match is not a function")
  end.

(** [await fetch(url)]. *)
Definition await_fetch (e : env) (url : jsval) : M fetch_response :=
  emit (EvFetch url) ;;; await (fetch e url).

(** [await pdfPrinter.print(filePath, options)]. *)
Definition await_print (e : env) (filePath : string) (printer : option jsval)
  : M unit :=
  emit (EvPrint filePath printer) ;;; await (pdf_print e filePath printer).

(** [printer.execute("Print-Job", msg, cb)] wrapped in a promise. *)
Definition await_ipp (e : env) (url : string) (msg : ipp_message) : M unit :=
  emit (EvIppExecute url "Print-Job" msg) ;;;
  await (ipp_execute e url "Print-Job" msg).

(** ** The socket exchange of [mode === "tcp"] *)

(** State of the promise wrapped around the socket: the first of [resolve]
    and [reject] wins. *)
Inductive promise : Type :=
| Pending
| Resolved
| RejectedWith (msg : string).

(** [resolve()] or [reject(err)]: only a pending promise changes. *)
Definition settle (p new : promise) : promise :=
  match p with
  | Pending => new
  | _ => p
  end.

(** The callback given to [client.connect]. An exception thrown here is
    raised inside the socket's event dispatch, outside the handler's
    [try]. *)
Definition on_connect (raw : jsval) : M unit :=
  match raw with
  | JStr s =>
      (match match_data_url s with
       | Some b64 => emit (EvSocketWrite (ChunkBuffer (buffer_from_base64 b64)))
       | None => emit (EvSocketWrite (ChunkString s))
       end) ;;;
      emit EvSocketEnd
  | _ => fun w => (Die "raw.match is not a function", w)
  end.

(** What the connect callback hands to [client.write] for the string [r]
    in the raw field, lines 141 to 143: the decoded body when [r] matches
    the raw pattern, which asks for a leading [data:], and the string
    itself otherwise. *)
Definition decodeInline (r : string) : chunk :=
  match match_data_url r with
  | Some b64 => ChunkBuffer (buffer_from_base64 b64)
  | None => ChunkString r
  end.

(** Delivery of the socket's events to the listeners; [armed] tells whether
    the connect callback (a once-listener) is still registered. *)
Fixpoint socket_loop (raw : jsval) (evs : list socket_event) (armed : bool)
    (p : promise) : M promise :=
  match evs with
  | [] => ret p
  | SockConnect :: evs' =>
      (if armed then on_connect raw else ret tt) ;;;
      socket_loop raw evs' false p
  | SockClose :: evs' => socket_loop raw evs' armed (settle p Resolved)
  | SockError msg :: evs' => socket_loop raw evs' armed (settle p (RejectedWith msg))
  end.

(** [await] on the socket promise. *)
Definition await_promise (p : promise) : M unit :=
  match p with
  | Pending => fun w => (Hang, w)
  | Resolved => ret tt
  | RejectedWith msg => throw msg
  end.

(** [await new Promise(...)] of the tcp branch. *)
Definition send_raw (e : env) (printerIp raw : jsval) : M unit :=
  emit (EvSocketConnect 9100 printerIp) ;;;
  p <- socket_loop raw (socket_events e printerIp) true Pending ;;
  await_promise p.

(** ** The three branches of POST /print *)

(** [if (mode === "os") { ... }], lines 71 to 121. *)
Definition print_os (e : env) (b : body) : M Res.t :=
  if negb (truthy (fileUrl b)) && negb (truthy (fileBase64 b)) then
    return_ (bad_request "fileUrl or fileBase64 required for mode=os")
  else
    filePath <-
      (if truthy (fileBase64 b) then
         m <- js_match "fileBase64" match_base64 (fileBase64 b) ;;
         match m with
         | None => return_ (bad_request "Invalid fileBase64 payload")
         | Some b64 =>
             let buffer := buffer_from_base64 b64 in
             let filePath := tmp_path e in
             mkdirSync (tmp_dir e) ;;;
             writeFileSync filePath buffer ;;;
             ret filePath
         end
       else
         resp <- await_fetch e (fileUrl b) ;;
         if negb (ok resp) then
           throw ("Failed to fetch file: " +:+ statusText resp)
         else
           buffer <- await (buffer resp) ;;
           let filePath := tmp_path e in
           mkdirSync (tmp_dir e) ;;;
           writeFileSync filePath buffer ;;;
           ret filePath) ;;
    let options :=
      if truthy (printerName b) then Some (printerName b) else None in
    await_print e filePath options ;;;
    unlinkSync e filePath ;;;
    ret (sent "os" "Sent to OS print spooler").

(** [if (mode === "tcp") { ... }], lines 123 to 156. *)
Definition print_tcp (e : env) (b : body) : M Res.t :=
  if negb (truthy (printerIp b)) then
    return_ (bad_request "printerIp required for mode=tcp")
  else if negb (truthy (raw b)) then
    return_ (bad_request "raw data required for tcp mode")
  else
    send_raw e (printerIp b) (raw b) ;;;
    ret (sent "tcp" "Raw TCP sent to printer").

(** [if (mode === "ipp") { ... }], lines 158 to 205. *)
Definition print_ipp (e : env) (b : body) : M Res.t :=
  if negb (truthy (printerIp b)) then
    return_ (bad_request "printerIp required for mode=ipp")
  else if negb (truthy (fileUrl b)) && negb (truthy (fileBase64 b)) then
    return_ (bad_request "fileUrl or fileBase64 required for ipp")
  else
    fileBuffer <-
      (if truthy (fileBase64 b) then
         m <- js_match "fileBase64" match_base64 (fileBase64 b) ;;
         match m with
         | None => return_ (bad_request "Invalid fileBase64")
         | Some b64 => ret (buffer_from_base64 b64)
         end
       else
         response <- await_fetch e (fileUrl b) ;;
         if negb (ok response) then throw "Failed to fetch fileUrl"
         else await (buffer response)) ;;
    let printerURL := "http://" +:+ to_string (printerIp b) +:+ ":631/ipp/print" in
    let msg := IppMessage "nodejs" "node-ipp-job" "application/pdf" fileBuffer in
    await_ipp e printerURL msg ;;;
    ret (sent "ipp" "IPP job sent").

(** The body of the [try] block. *)
Definition print_try (e : env) (b : body) : M Res.t :=
  let mode := with_default (mode b) (JStr "os") in
  if strict_eq_str mode "os" then print_os e b
  else if strict_eq_str mode "tcp" then print_tcp e b
  else if strict_eq_str mode "ipp" then print_ipp e b
  else return_ (bad_request "Unsupported mode").

(** The [catch] block around the [try], lines 208 to 211: what was thrown
    is logged and answered with status 500 and [error: err.message], a
    field that is left out when the thrown value has no message; a
    [return] inside the [try] is the answer. *)
Definition try_catch (m : M Res.t) (w : world) : outcome * world :=
  match m w with
  | (Next r, w') => (Responded r, w')
  | (Return r, w') => (Responded r, w')
  | (Throw msg, w') =>
      (Responded (server_error msg),
       World (files w') (dirs w') (trace w' ++ [EvConsoleError msg]))
  | (ThrowValue text, w') =>
      (Responded server_error_without_message,
       World (files w') (dirs w') (trace w' ++ [EvConsoleError text]))
  | (Hang, w') => (NoResponse, w')
  | (Die msg, w') => (Uncaught msg, w')
  end.

(** [app.post("/print", ...)]. *)
Definition post_print (e : env) (b : body) (w : world) : outcome * world :=
  try_catch (print_try e b) w.

(** A file system with nothing in it and an empty trace. *)
Definition empty_world : world := World ∅ ∅ [].

(** ** Vocabulary of the specification *)

(** The three transports of the job description. *)
Inductive transport : Type := OS | RAW_SOCKET | IPP.

(** The transport a body declares; [mode] defaults to ["os"]. *)
Definition declared_mode (b : body) : option transport :=
  let m := with_default (mode b) (JStr "os") in
  if strict_eq_str m "os" then Some OS
  else if strict_eq_str m "tcp" then Some RAW_SOCKET
  else if strict_eq_str m "ipp" then Some IPP
  else None.

(** A field is present when the handler's test [if (field)] passes. *)
Definition present (v : jsval) : bool := truthy v.

Definition has_document_source (b : body) : bool :=
  present (fileUrl b) || present (fileBase64 b).

(** A field required by the declared mode is missing. *)
Definition missing_required_field (b : body) : bool :=
  match declared_mode b with
  | Some OS => negb (has_document_source b)
  | Some RAW_SOCKET => negb (present (printerIp b)) || negb (present (raw b))
  | Some IPP => negb (present (printerIp b)) || negb (has_document_source b)
  | None => false
  end.

(** The messages of the responses that report a missing field. *)
Definition missing_field_messages : list string :=
  [ "fileUrl or fileBase64 required for mode=os";
    "printerIp required for mode=tcp";
    "raw data required for tcp mode";
    "printerIp required for mode=ipp";
    "fileUrl or fileBase64 required for ipp" ].

(** The messages of the responses that report an invalid inline encoding. *)
Definition invalid_encoding_messages : list string :=
  [ "Invalid fileBase64 payload"; "Invalid fileBase64" ].

(** [lit] occurs somewhere in [s]. *)
Fixpoint occurs (lit s : string) : bool :=
  match strip_literal lit s with
  | Some _ => true
  | None =>
      match s with
      | EmptyString => false
      | String _ s' => occurs lit s'
      end
  end.

(** The inline-encoding pattern of the specification: a media type, the
    delimiter [;base64,] and the data. *)
Definition inline_pattern_present (s : string) : bool := occurs ";base64," s.

(** The state of the socket promise after the events [evs]. *)
Fixpoint promise_after (evs : list socket_event) (p : promise) : promise :=
  match evs with
  | [] => p
  | SockConnect :: evs' => promise_after evs' p
  | SockClose :: evs' => promise_after evs' (settle p Resolved)
  | SockError msg :: evs' => promise_after evs' (settle p (RejectedWith msg))
  end.

Definition is_connect (ev : socket_event) : bool :=
  match ev with
  | SockConnect => true
  | _ => false
  end.


Definition is_fetch (ev : event) : bool :=
  match ev with
  | EvFetch _ => true
  | _ => false
  end.

Definition is_write_file (ev : event) : bool :=
  match ev with
  | EvWriteFile _ _ => true
  | _ => false
  end.

(** A character of the standard base64 alphabet and its six-bit value. *)
Definition std_value (c : ascii) : option N :=
  let n := N_of_ascii c in
  if (65 <=? n)%N && (n <=? 90)%N then Some (n - 65)%N
  else if (97 <=? n)%N && (n <=? 122)%N then Some (n - 71)%N
  else if (48 <=? n)%N && (n <=? 57)%N then Some (n + 4)%N
  else if (n =? 43)%N then Some 62%N
  else if (n =? 47)%N then Some 63%N
  else None.

Definition std_char (c : ascii) : bool :=
  match std_value c with
  | Some _ => true
  | None => false
  end.

(** The low [k] bits of the value of [c] are zero. *)
Definition low_bits_zero (k : N) (c : ascii) : bool :=
  match std_value c with
  | Some v => (v mod (2 ^ k) =? 0)%N
  | None => false
  end.

(** A base64 string in canonical form (RFC 4648, section 4): groups of four
    characters of the standard alphabet, the last group padded with one or
    two [=] after characters whose unused bits are zero. *)
Fixpoint is_base64 (s : string) : bool :=
  match s with
  | EmptyString => true
  | String a (String b (String c (String d rest))) =>
      if Ascii.eqb d "=" then
        String.eqb rest "" && std_char a &&
        (if Ascii.eqb c "=" then low_bits_zero 4 b
         else std_char b && low_bits_zero 2 c)
      else
        std_char a && std_char b && std_char c && std_char d && is_base64 rest
  | _ => false
  end.

(** The body of [req.body] with [fileUrl] left out. *)
Definition without_fileUrl (b : body) : body :=
  Body (mode b) (printerName b) (printerIp b) JUndefined (fileBase64 b) (raw b).

(** ** The handler after the payload is resolved *)

(** [options.printer], set only when [printerName] is given. *)
Definition printer_option (b : body) : option jsval :=
  if truthy (printerName b) then Some (printerName b) else None.

(** The os branch from [mkdirSync] on, for the payload [buf]. *)
Definition spool (e : env) (b : body) (buf : list byte) : M Res.t :=
  mkdirSync (tmp_dir e) ;;;
  writeFileSync (tmp_path e) buf ;;;
  await_print e (tmp_path e) (printer_option b) ;;;
  unlinkSync e (tmp_path e) ;;;
  ret (sent "os" "Sent to OS print spooler").

(** The world once the temporary file is written and handed to the
    spooler. *)
Definition spooled (e : env) (b : body) (buf : list byte) (w : world) : world :=
  World (<[tmp_path e := buf]> (files w)) ({[tmp_dir e]} ∪ dirs w)
        (trace w ++ [EvMkdir (tmp_dir e); EvWriteFile (tmp_path e) buf;
                     EvPrint (tmp_path e) (printer_option b)]).

(** The world after the cleanup that follows a successful spooler call. *)
Definition cleaned (e : env) (b : body) (buf : list byte) (w : world) : world :=
  World (if unlink_ok e (tmp_path e)
         then delete (tmp_path e) (files (spooled e b buf w))
         else files (spooled e b buf w))
        ({[tmp_dir e]} ∪ dirs w)
        (trace (spooled e b buf w) ++ [EvUnlink (tmp_path e)]).

Definition ipp_url (b : body) : string :=
  "http://" +:+ to_string (printerIp b) +:+ ":631/ipp/print".

Definition ipp_job (buf : list byte) : ipp_message :=
  IppMessage "nodejs" "node-ipp-job" "application/pdf" buf.

(** The ipp branch from [printer.execute] on, for the payload [buf]. *)
Definition submit (e : env) (b : body) (buf : list byte) : M Res.t :=
  await_ipp e (ipp_url b) (ipp_job buf) ;;;
  ret (sent "ipp" "IPP job sent").

(** Append events to the trace of a world. *)
Definition logged (w : world) (evs : list event) : world :=
  World (files w) (dirs w) (trace w ++ evs).

(** The effects of the tcp branch on the socket, for a string [r] in the
    raw field and the socket events [evs]. *)
Definition tcp_events (host : jsval) (r : string) (evs : list socket_event)
  : list event :=
  EvSocketConnect 9100 host ::
  (if existsb is_connect evs
   then [EvSocketWrite (decodeInline r); EvSocketEnd]
   else []).

(** The socket closes before it reports an error. *)
Definition closed_first (evs : list socket_event) : Prop :=
  exists pre post,
    evs = pre ++ SockClose :: post /\ Forall (fun ev => ev = SockConnect) pre.


(** What the handler answers once the os branch has its payload. *)
Definition spool_outcome (e : env) (b : body) (buf : list byte) (w : world)
  : outcome * world :=
  match pdf_print e (tmp_path e) (printer_option b) with
  | Fulfilled _ =>
      (Responded (sent "os" "Sent to OS print spooler"), cleaned e b buf w)
  | Rejected msg =>
      (Responded (server_error msg),
       logged (spooled e b buf w) [EvConsoleError msg])
  | RejectedValue text =>
      (Responded server_error_without_message,
       logged (spooled e b buf w) [EvConsoleError text])
  | Forever => (NoResponse, spooled e b buf w)
  end.

(** What the handler answers once the ipp branch has its payload. *)
Definition submit_outcome (e : env) (b : body) (buf : list byte) (w : world)
  : outcome * world :=
  match ipp_execute e (ipp_url b) "Print-Job" (ipp_job buf) with
  | Fulfilled _ =>
      (Responded (sent "ipp" "IPP job sent"),
       logged w [EvIppExecute (ipp_url b) "Print-Job" (ipp_job buf)])
  | Rejected msg =>
      (Responded (server_error msg),
       logged w [EvIppExecute (ipp_url b) "Print-Job" (ipp_job buf);
                 EvConsoleError msg])
  | RejectedValue text =>
      (Responded server_error_without_message,
       logged w [EvIppExecute (ipp_url b) "Print-Job" (ipp_job buf);
                 EvConsoleError text])
  | Forever =>
      (NoResponse, logged w [EvIppExecute (ipp_url b) "Print-Job" (ipp_job buf)])
  end.

(** The events of the os branch after the payload is resolved: the
    directory, the temporary file, the spooler call and what follows it. *)
Definition spool_events (e : env) (b : body) (buf : list byte) : list event :=
  [EvMkdir (tmp_dir e); EvWriteFile (tmp_path e) buf;
   EvPrint (tmp_path e) (printer_option b)] ++
  match pdf_print e (tmp_path e) (printer_option b) with
  | Fulfilled _ => [EvUnlink (tmp_path e)]
  | Rejected msg => [EvConsoleError msg]
  | RejectedValue text => [EvConsoleError text]
  | Forever => []
  end.

(** The events a request adds to the trace of the world it starts in. *)
Definition events_of (e : env) (b : body) (w : world) : list event :=
  drop (length (trace w)) (trace (snd (post_print e b w))).

(** How the download of the os branch can fail: [fetch] rejects, the
    response is not [ok], or reading its body rejects. *)
Definition download_fails (e : env) (b : body) : Prop :=
  (exists msg, fetch e (fileUrl b) = Rejected msg) \/
  (exists resp, fetch e (fileUrl b) = Fulfilled resp /\ ok resp = false) \/
  (exists resp msg,
     fetch e (fileUrl b) = Fulfilled resp /\ ok resp = true /\
     buffer resp = Rejected msg).

(** Every file an event list writes has the path [path]. *)
Definition writes_only (path : string) (evs : list event) : Prop :=
  forall p content, In (EvWriteFile p content) evs -> p = path.

(** ** Sample requests and environments *)

(** The bytes of [%PDF-1]. *)
Definition sample_pdf : list byte := [x25; x50; x44; x46; x2d; x31].

(** Every collaborator answers; the socket connects and closes. *)
Definition env_all_ok : env :=
  Env "/srv/print" 1700000000000
      (fun _ => Fulfilled (FetchResponse true "OK" (Fulfilled sample_pdf)))
      (fun _ _ => Fulfilled tt)
      (fun _ => [SockConnect; SockClose])
      (fun _ _ _ => Fulfilled tt)
      (fun _ => true).

(** The same clock reading, one millisecond later. *)
Definition env_next_ms : env :=
  Env "/srv/print" 1700000000001
      (fun _ => Fulfilled (FetchResponse true "OK" (Fulfilled sample_pdf)))
      (fun _ _ => Fulfilled tt)
      (fun _ => [SockConnect; SockClose])
      (fun _ _ _ => Fulfilled tt)
      (fun _ => true).

(** pdf-to-printer rejects, as it does for an unknown printer. *)
Definition env_spooler_fails : env :=
  Env "/srv/print" 1700000000000
      (fun _ => Fulfilled (FetchResponse true "OK" (Fulfilled sample_pdf)))
      (fun _ _ => Rejected "Printer not found")
      (fun _ => [SockError "ECONNREFUSED"; SockClose])
      (fun _ _ _ => Rejected "IPP request failed")
      (fun _ => true).

(** pdf-to-printer completes, and the file cannot be removed afterwards (it
    is still held by the spooler, say). *)
Definition env_unlink_fails : env :=
  Env "/srv/print" 1700000000000
      (fun _ => Fulfilled (FetchResponse true "OK" (Fulfilled sample_pdf)))
      (fun _ _ => Fulfilled tt)
      (fun _ => [SockConnect; SockClose])
      (fun _ _ _ => Fulfilled tt)
      (fun _ => false).

(** pdf-to-printer rejects with a string, not with an [Error]. *)
Definition env_spooler_throws_string : env :=
  Env "/srv/print" 1700000000000
      (fun _ => Fulfilled (FetchResponse true "OK" (Fulfilled sample_pdf)))
      (fun _ _ => RejectedValue "No such file")
      (fun _ => [SockConnect; SockClose])
      (fun _ _ _ => RejectedValue "printer busy")
      (fun _ => true).

(** A raw field in the shape of the specification's inline encoding,
    without a leading [data:]. *)
Definition job_tcp_inline : body :=
  Body (JStr "tcp") JUndefined (JStr "10.0.0.5") JUndefined JUndefined
       (JStr "application/pdf;base64,JVBERi0x").

(** A raw field that is a data URL. *)
Definition job_tcp_data_url : body :=
  Body (JStr "tcp") JUndefined (JStr "10.0.0.5") JUndefined JUndefined
       (JStr "data:application/pdf;base64,JVBERi0x").

(** The fetch answers with a response that is not [ok] and has the status
    text [st] (404 Not Found, say). *)
Definition env_fetch_status (st : string) : env :=
  Env "/srv/print" 1700000000000
      (fun _ => Fulfilled (FetchResponse false st (Fulfilled [])))
      (fun _ _ => Fulfilled tt)
      (fun _ => [SockConnect; SockClose])
      (fun _ _ _ => Fulfilled tt)
      (fun _ => true).

Definition job_os_inline : body :=
  Body JUndefined JUndefined JUndefined JUndefined
       (JStr "application/pdf;base64,JVBERi0x") JUndefined.

(** fileBase64 without a media type and without the [;] delimiter. *)
Definition job_os_bare : body :=
  Body (JStr "os") JUndefined JUndefined JUndefined
       (JStr "base64,JVBERi0x") JUndefined.

(** The bytes of [%PDF-2]. *)
Definition other_pdf : list byte := [x25; x50; x44; x46; x2d; x32].

(** A second document, sent by another client. *)
Definition job_os_other : body :=
  Body (JStr "os") (JStr "Office") JUndefined JUndefined
       (JStr "data:application/pdf;base64,JVBERi0y") JUndefined.

Definition job_os_remote : body :=
  Body (JStr "os") JUndefined JUndefined (JStr "http://bad.example/x.pdf")
       JUndefined JUndefined.

Definition job_os_both : body :=
  Body (JStr "os") JUndefined JUndefined (JStr "http://bad.example/x.pdf")
       (JStr "application/pdf;base64,JVBERi0x") JUndefined.

Definition job_tcp_no_raw : body :=
  Body (JStr "tcp") JUndefined (JStr "10.0.0.5") JUndefined JUndefined JUndefined.

Definition job_tcp_test : body :=
  Body (JStr "tcp") JUndefined (JStr "10.0.0.5") JUndefined JUndefined
       (JStr "TEST").

Definition job_ipp_remote : body :=
  Body (JStr "ipp") JUndefined (JStr "10.0.0.9")
       (JStr "http://bad.example/x.pdf") JUndefined JUndefined.

(** pdf-to-printer has not answered yet: the job is still being spooled. *)
Definition env_spooler_pending : env :=
  Env "/srv/print" 1700000000000
      (fun _ => Fulfilled (FetchResponse true "OK" (Fulfilled sample_pdf)))
      (fun _ _ => Forever)
      (fun _ => [SockConnect])
      (fun _ _ _ => Forever)
      (fun _ => true).

(** ** The shapes a run of each branch can take *)

(** What the handler answers after the socket promise of the tcp branch is
    in the state [p]. *)
Definition promise_outcome (p : promise) (w : world) : outcome * world :=
  match p with
  | Resolved => (Responded (sent "tcp" "Raw TCP sent to printer"), w)
  | RejectedWith msg =>
      (Responded (server_error msg), logged w [EvConsoleError msg])
  | Pending => (NoResponse, w)
  end.

(** The runs of the os branch. *)
Inductive os_run (e : env) (b : body) (w : world) : outcome * world -> Prop :=
| OsMissing :
    os_run e b w
      (Responded (bad_request "fileUrl or fileBase64 required for mode=os"), w)
| OsTypeError :
    os_run e b w
      (Responded (server_error "fileBase64.match is not a function"),
       logged w [EvConsoleError "fileBase64.match is not a function"])
| OsInvalid :
    os_run e b w (Responded (bad_request "Invalid fileBase64 payload"), w)
| OsInline (b64 : string) :
    os_run e b w (spool_outcome e b (buffer_from_base64 b64) w)
| OsRemote (buf : list byte) :
    os_run e b w (spool_outcome e b buf (logged w [EvFetch (fileUrl b)]))
| OsDownloadFailed (msg : string) :
    os_run e b w
      (Responded (server_error msg),
       logged w [EvFetch (fileUrl b); EvConsoleError msg])
| OsDownloadFailedValue (text : string) :
    os_run e b w
      (Responded server_error_without_message,
       logged w [EvFetch (fileUrl b); EvConsoleError text])
| OsDownloadPending :
    os_run e b w (NoResponse, logged w [EvFetch (fileUrl b)]).

(** The runs of the ipp branch. *)
Inductive ipp_run (e : env) (b : body) (w : world) : outcome * world -> Prop :=
| IppMissingIp :
    ipp_run e b w (Responded (bad_request "printerIp required for mode=ipp"), w)
| IppMissingSource :
    ipp_run e b w
      (Responded (bad_request "fileUrl or fileBase64 required for ipp"), w)
| IppTypeError :
    ipp_run e b w
      (Responded (server_error "fileBase64.match is not a function"),
       logged w [EvConsoleError "fileBase64.match is not a function"])
| IppInvalid :
    ipp_run e b w (Responded (bad_request "Invalid fileBase64"), w)
| IppInline (b64 : string) :
    ipp_run e b w (submit_outcome e b (buffer_from_base64 b64) w)
| IppRemote (buf : list byte) :
    ipp_run e b w (submit_outcome e b buf (logged w [EvFetch (fileUrl b)]))
| IppDownloadFailed (msg : string) :
    ipp_run e b w
      (Responded (server_error msg),
       logged w [EvFetch (fileUrl b); EvConsoleError msg])
| IppDownloadFailedValue (text : string) :
    ipp_run e b w
      (Responded server_error_without_message,
       logged w [EvFetch (fileUrl b); EvConsoleError text])
| IppDownloadPending :
    ipp_run e b w (NoResponse, logged w [EvFetch (fileUrl b)]).

(** The runs of the tcp branch. *)
Inductive tcp_run (e : env) (b : body) (w : world) : outcome * world -> Prop :=
| TcpMissingIp :
    tcp_run e b w (Responded (bad_request "printerIp required for mode=tcp"), w)
| TcpMissingRaw :
    tcp_run e b w (Responded (bad_request "raw data required for tcp mode"), w)
| TcpString (r : string) :
    raw b = JStr r ->
    tcp_run e b w
      (promise_outcome (promise_after (socket_events e (printerIp b)) Pending)
         (logged w (tcp_events (printerIp b) r (socket_events e (printerIp b)))))
| TcpNoConnect :
    (forall r, raw b <> JStr r) ->
    ~ In SockConnect (socket_events e (printerIp b)) ->
    tcp_run e b w
      (promise_outcome (promise_after (socket_events e (printerIp b)) Pending)
         (logged w [EvSocketConnect 9100 (printerIp b)]))
| TcpCrash :
    truthy (printerIp b) = true -> truthy (raw b) = true ->
    (forall r, raw b <> JStr r) ->
    In SockConnect (socket_events e (printerIp b)) ->
    tcp_run e b w
      (Uncaught "raw.match is not a function",
       logged w [EvSocketConnect 9100 (printerIp b)]).

(** The kinds of events each transport may produce. *)
Definition os_event (ev : event) : bool :=
  match ev with
  | EvFetch _ | EvMkdir _ | EvWriteFile _ _ | EvPrint _ _ | EvUnlink _
  | EvConsoleError _ => true
  | _ => false
  end.

Definition tcp_event (ev : event) : bool :=
  match ev with
  | EvSocketConnect _ _ | EvSocketWrite _ | EvSocketEnd | EvConsoleError _ => true
  | _ => false
  end.

Definition ipp_event (ev : event) : bool :=
  match ev with
  | EvFetch _ | EvIppExecute _ _ _ | EvConsoleError _ => true
  | _ => false
  end.

(** A call into one of the three drivers. *)
Definition is_driver_call (ev : event) : bool :=
  match ev with
  | EvPrint _ _ | EvSocketConnect _ _ | EvIppExecute _ _ _ => true
  | _ => false
  end.

(** The body of [req.body] with [mode] set to [m]. *)
Definition with_mode (m : jsval) (b : body) : body :=
  Body m (printerName b) (printerIp b) (fileUrl b) (fileBase64 b) (raw b).

(** ** The server around the handler *)

Module Server.

(** The environment variable the key is read from. *)
Record process_env : Type := ProcessEnv {
  PRINT_API_KEY : option string
}.

(** A variable of [process.env]: a string, or [undefined] when unset. *)
Definition env_value (v : option string) : jsval :=
  match v with
  | Some s => JStr s
  | None => JUndefined
  end.

(** [a || b]. *)
Definition js_or (a b : jsval) : jsval := if truthy a then a else b.

(** [a === b]; an object is identical to no other value. *)
Definition strict_eq (a b : jsval) : bool :=
  match a, b with
  | JUndefined, JUndefined => true
  | JNull, JNull => true
  | JBool x, JBool y => Bool.eqb x y
  | JNum x, JNum y => String.eqb x y && negb (String.eqb x "NaN")
  | JStr x, JStr y => String.eqb x y
  | _, _ => false
  end.

(** [const API_KEY = process.env.PRINT_API_KEY || "1234"], line 16. *)
Definition API_KEY (pe : process_env) : jsval :=
  js_or (env_value (PRINT_API_KEY pe)) (JStr "1234").

(** The handler the router selects for the method and path of a request;
    [NoRoute] when none of the three routes of the file matches. *)
Inductive route : Type := GetPrinters | PostPrint | GetRoot | NoRoute.

(** A request as the key check and the routes see it: the selected route,
    [req.headers["x-api-key"]], [req.query.api_key] and the parsed body. *)
Record request : Type := Request {
  route_of : route;
  x_api_key : jsval;
  query_api_key : jsval;
  req_body : body
}.

(** What the server runs in: the process environment, the answer of
    [pdfPrinter.getPrinters()] and the environment of POST /print. *)
Record services : Type := Services {
  penv : process_env;
  getPrinters : settled (list jsval);
  print_env : env
}.

(** A JSON answer of any route, with its HTTP status. *)
Record reply : Type := Reply {
  status : Z;
  success : bool;
  mode : option string;
  message : option string;
  error : option string;
  printers : option (list jsval)
}.

(** How a request ends: with a reply, without one, with an exception that
    nothing catches, or passed on by the router because no route matches. *)
Inductive answer : Type :=
| Replied (r : reply)
| NoReply
| Crashed (msg : string)
| Unrouted.

Definition of_res (r : Res.t) : reply :=
  Reply (Res.status r) (Res.success r) (Res.mode r) (Res.message r)
        (Res.error r) None.

Definition of_outcome (o : outcome) : answer :=
  match o with
  | Responded r => Replied (of_res r)
  | NoResponse => NoReply
  | Uncaught msg => Crashed msg
  end.

(** [res.status(401).json({ success: false, error: "Unauthorized" })]. *)
Definition unauthorized : reply :=
  Reply 401 false None None (Some "Unauthorized") None.

(** The key check, lines 26 to 32: [true] when [next()] is called. *)
Definition key_accepted (pe : process_env) (rq : request) : bool :=
  let key := js_or (x_api_key rq) (query_api_key rq) in
  if negb (truthy key) || negb (strict_eq key (API_KEY pe)) then false
  else true.

(** GET /printers, lines 38 to 46. *)
Definition get_printers (sv : services) : answer :=
  match getPrinters sv with
  | Fulfilled ps => Replied (Reply 200 true None None None (Some ps))
  | Rejected msg => Replied (Reply 500 false None None (Some msg) None)
  | RejectedValue _ => Replied (Reply 500 false None None None None)
  | Forever => NoReply
  end.

(** GET /, lines 215 to 217. *)
Definition get_root : answer :=
  Replied (Reply 200 true None (Some "Print service running") None None).

(** The three routes of the file. *)
Definition routes (sv : services) (rq : request) (w : world) : answer * world :=
  match route_of rq with
  | GetPrinters => (get_printers sv, w)
  | PostPrint =>
      let '(o, w') := post_print (print_env sv) (req_body rq) w in
      (of_outcome o, w')
  | GetRoot => (get_root, w)
  | NoRoute => (Unrouted, w)
  end.

(** The key check followed by the routes. *)
Definition app (sv : services) (rq : request) (w : world) : answer * world :=
  if key_accepted (penv sv) rq then routes sv rq w
  else (Replied unauthorized, w).

(** The request presents the key: in the header, or in the query string
    when the header is absent or empty. *)
Definition presents_key (pe : process_env) (rq : request) : Prop :=
  x_api_key rq = API_KEY pe \/
  (truthy (x_api_key rq) = false /\ query_api_key rq = API_KEY pe).

End Server.

(** Requests and services for the examples. *)
Definition services_default_key : Server.services :=
  Server.Services (Server.ProcessEnv None) (Fulfilled [JStr "Office"]) env_all_ok.

Definition services_secret_key : Server.services :=
  Server.Services (Server.ProcessEnv (Some "s3cret")) (Rejected "spooler down")
                  env_all_ok.

(** A print request that carries a wrong key in the header and the right
    one in the query string. *)
Definition request_wrong_header : Server.request :=
  Server.Request Server.PostPrint (JStr "0000") (JStr "1234") job_os_inline.

(** A print request that carries the key in the query string only. *)
Definition request_query_key : Server.request :=
  Server.Request Server.PostPrint JUndefined (JStr "1234") job_os_inline.

(** A directory that already holds a file. *)
Definition world_with_file : world :=
  World {["/srv/print/index.js" := sample_pdf]} ∅ [].

(** A mode the handler does not know. *)
Definition job_unknown_mode : body :=
  Body (JStr "OS") JUndefined JUndefined JUndefined
       (JStr "application/pdf;base64,JVBERi0x") JUndefined.

(** fileBase64 given as a number. *)
Definition job_os_number : body :=
  Body (JStr "os") JUndefined JUndefined (JStr "http://bad.example/x.pdf")
       (JNum "7") JUndefined.

(** raw given as a number. *)
Definition job_tcp_number : body :=
  Body (JStr "tcp") JUndefined (JStr "10.0.0.5") JUndefined JUndefined (JNum "7").

(** A base64 body wrapped over two lines. *)
Definition job_os_wrapped : body :=
  Body (JStr "os") JUndefined JUndefined JUndefined
       (JStr ("data:application/pdf;base64,JVBE" +:+ String "010" "Ri0x"))
       JUndefined.

(** A health check without any key. *)
Definition request_no_key : Server.request :=
  Server.Request Server.GetRoot (JStr "") JUndefined job_os_inline.

(** The variable is set, to the empty string. *)
Definition services_empty_key : Server.services :=
  Server.Services (Server.ProcessEnv (Some "")) (Fulfilled []) env_all_ok.

Definition job_ipp_inline : body :=
  Body (JStr "ipp") JUndefined (JStr "10.0.0.9") JUndefined
       (JStr "application/pdf;base64,JVBERi0x") JUndefined.

(** ** Proof automation *)

(** Linear arithmetic with division and remainder by constants. *)
Ltac div_mod_lia := zify; Z.to_euclidean_division_equations; lia.

(** Case analysis on the answers of the spooler, of the IPP printer and on
    the state of the socket promise, wherever the goal inspects them. *)
Ltac case_oracles :=
  repeat match goal with
  | |- context [match pdf_print ?e ?p ?o with _ => _ end] =>
      destruct (pdf_print e p o) eqn:?
  | |- context [match ipp_execute ?e ?u ?op ?m with _ => _ end] =>
      destruct (ipp_execute e u op m) eqn:?
  | |- context [match promise_after ?evs ?p with _ => _ end] =>
      destruct (promise_after evs p) eqn:?
  | |- context [if existsb is_connect ?evs then _ else _] =>
      destruct (existsb is_connect evs) eqn:?
  end.

(** Bring the trace of a run to the form [trace w ++ new] and read the new
    events off it. *)
Ltac norm_events :=
  unfold events_of, tcp_events, cleaned, spooled, logged; simpl;
  rewrite <- ?app_assoc; rewrite ?drop_app_length; simpl.

(** Unfold the answers of the three branches. *)
Ltac unfold_answers :=
  unfold spool_outcome, submit_outcome, promise_outcome, tcp_events, sent,
    server_error, server_error_without_message, bad_request in *.

(** * Properties *)

(** ** Dispatch on the declared mode *)

Section Dispatch.
Variables (e : env) (b : body).

Lemma print_try_os : declared_mode b = Some OS -> print_try e b = print_os e b.
Proof.
  unfold declared_mode, print_try.
  destruct (strict_eq_str _ "os"); [reflexivity|].
  destruct (strict_eq_str _ "tcp"); [discriminate|].
  destruct (strict_eq_str _ "ipp"); discriminate.
Qed.

Lemma print_try_tcp :
  declared_mode b = Some RAW_SOCKET -> print_try e b = print_tcp e b.
Proof.
  unfold declared_mode, print_try.
  destruct (strict_eq_str _ "os"); [discriminate|].
  destruct (strict_eq_str _ "tcp"); [reflexivity|].
  destruct (strict_eq_str _ "ipp"); discriminate.
Qed.

Lemma print_try_ipp : declared_mode b = Some IPP -> print_try e b = print_ipp e b.
Proof.
  unfold declared_mode, print_try.
  destruct (strict_eq_str _ "os"); [discriminate|].
  destruct (strict_eq_str _ "tcp"); [discriminate|].
  destruct (strict_eq_str _ "ipp"); [reflexivity|discriminate].
Qed.
End Dispatch.

(** ** Validation comes before any effect *)

(** C2. A job that lacks a field its declared mode requires (os without
    fileUrl and fileBase64; tcp without printerIp or without raw; ipp
    without printerIp or without fileUrl and fileBase64) is answered with
    status 400 and one of the "required" messages, and the world is left as
    it was: no file, no socket, no fetch, no entry in the trace. *)
Theorem missing_field_rejected_before_io (e : env) (b : body) (w : world) :
  missing_required_field b = true ->
  exists msg,
    In msg missing_field_messages /\
    post_print e b w = (Responded (bad_request msg), w).
Proof.
  unfold missing_required_field, has_document_source, present, post_print,
    try_catch.
  destruct (declared_mode b) as [[ | | ]|] eqn:Hm; [| | |discriminate].
  - rewrite (print_try_os e b Hm). unfold print_os, missing_field_messages.
    destruct (truthy (fileUrl b)), (truthy (fileBase64 b)); try discriminate.
    intros _. eexists. split; [|reflexivity]. simpl; auto 10.
  - rewrite (print_try_tcp e b Hm). unfold print_tcp, missing_field_messages.
    destruct (truthy (printerIp b)), (truthy (raw b)); try discriminate;
      intros _; eexists; (split; [|reflexivity]); simpl; auto 10.
  - rewrite (print_try_ipp e b Hm). unfold print_ipp, missing_field_messages.
    destruct (truthy (printerIp b)), (truthy (fileUrl b)),
      (truthy (fileBase64 b)); try discriminate;
      intros _; eexists; (split; [|reflexivity]); simpl; auto 10.
Qed.

(** ** Symbolic runs of the branches *)

Lemma logged_nil (w : world) : logged w [] = w.
Proof. destruct w. unfold logged. simpl. by rewrite app_nil_r. Qed.

Lemma logged_logged (w : world) (l1 l2 : list event) :
  logged (logged w l1) l2 = logged w (l1 ++ l2).
Proof. unfold logged. simpl. by rewrite <- app_assoc. Qed.

Lemma spool_run (e : env) (b : body) (buf : list byte) (w : world) :
  spool e b buf w =
  match pdf_print e (tmp_path e) (printer_option b) with
  | Fulfilled _ => (Next (sent "os" "Sent to OS print spooler"), cleaned e b buf w)
  | Rejected msg => (Throw msg, spooled e b buf w)
  | RejectedValue text => (ThrowValue text, spooled e b buf w)
  | Forever => (Hang, spooled e b buf w)
  end.
Proof.
  unfold spool, cleaned, spooled, bind, mkdirSync, writeFileSync, await_print,
    unlinkSync, emit, await, ret. simpl.
  rewrite <- !app_assoc. simpl.
  destruct (pdf_print e (tmp_path e) (printer_option b)); simpl;
    rewrite <- ?app_assoc; reflexivity.
Qed.

Lemma submit_run (e : env) (b : body) (buf : list byte) (w : world) :
  submit e b buf w =
  (match ipp_execute e (ipp_url b) "Print-Job" (ipp_job buf) with
   | Fulfilled _ => Next (sent "ipp" "IPP job sent")
   | Rejected msg => Throw msg
   | RejectedValue text => ThrowValue text
   | Forever => Hang
   end,
   logged w [EvIppExecute (ipp_url b) "Print-Job" (ipp_job buf)]).
Proof.
  unfold submit, await_ipp, bind, emit, await, ret, logged. simpl.
  destruct (ipp_execute e (ipp_url b) "Print-Job" (ipp_job buf)); reflexivity.
Qed.

Section InlineSource.
Variables (e : env) (b : body) (w : world).
Hypothesis Hinline : truthy (fileBase64 b) = true.

Lemma print_os_inline_match (s b64 : string) :
  fileBase64 b = JStr s -> match_base64 s = Some b64 ->
  print_os e b w = spool e b (buffer_from_base64 b64) w.
Proof.
  intros Hs Hm. unfold print_os. rewrite Hinline, andb_false_r. simpl.
  rewrite Hs. unfold js_match, bind at 1 2, ret at 1. rewrite Hm.
  unfold spool, printer_option, bind, ret. simpl.
  destruct (truthy (printerName b)); reflexivity.
Qed.

Lemma print_os_inline_no_match (s : string) :
  fileBase64 b = JStr s -> match_base64 s = None ->
  print_os e b w = (Return (bad_request "Invalid fileBase64 payload"), w).
Proof.
  intros Hs Hm. unfold print_os. rewrite Hinline, andb_false_r. simpl.
  rewrite Hs. unfold js_match, bind, ret. rewrite Hm. reflexivity.
Qed.

Lemma print_os_inline_not_string :
  (forall s, fileBase64 b <> JStr s) ->
  print_os e b w = (Throw "fileBase64.match is not a function", w).
Proof.
  intros Hs. unfold print_os. rewrite Hinline, andb_false_r. simpl.
  destruct (fileBase64 b); try reflexivity. by destruct (Hs s).
Qed.

Hypothesis Hip : truthy (printerIp b) = true.

Lemma print_ipp_inline_match (s b64 : string) :
  fileBase64 b = JStr s -> match_base64 s = Some b64 ->
  print_ipp e b w = submit e b (buffer_from_base64 b64) w.
Proof.
  intros Hs Hm. unfold print_ipp. rewrite Hip, Hinline, andb_false_r. simpl.
  rewrite Hs. unfold js_match, bind at 1 2, ret at 1. rewrite Hm.
  reflexivity.
Qed.

Lemma print_ipp_inline_no_match (s : string) :
  fileBase64 b = JStr s -> match_base64 s = None ->
  print_ipp e b w = (Return (bad_request "Invalid fileBase64"), w).
Proof.
  intros Hs Hm. unfold print_ipp. rewrite Hip, Hinline, andb_false_r. simpl.
  rewrite Hs. unfold js_match, bind, ret. rewrite Hm. reflexivity.
Qed.

Lemma print_ipp_inline_not_string :
  (forall s, fileBase64 b <> JStr s) ->
  print_ipp e b w = (Throw "fileBase64.match is not a function", w).
Proof.
  intros Hs. unfold print_ipp. rewrite Hip, Hinline, andb_false_r. simpl.
  destruct (fileBase64 b); try reflexivity. by destruct (Hs s).
Qed.
End InlineSource.

Section RemoteSource.
Variables (e : env) (b : body) (w : world).
Hypothesis Hinline : truthy (fileBase64 b) = false.
Hypothesis Hurl : truthy (fileUrl b) = true.

Lemma print_os_remote :
  print_os e b w =
  match fetch e (fileUrl b) with
  | Fulfilled resp =>
      if ok resp then
        match buffer resp with
        | Fulfilled buf => spool e b buf (logged w [EvFetch (fileUrl b)])
        | Rejected msg => (Throw msg, logged w [EvFetch (fileUrl b)])
        | RejectedValue text => (ThrowValue text, logged w [EvFetch (fileUrl b)])
        | Forever => (Hang, logged w [EvFetch (fileUrl b)])
        end
      else
        (Throw ("Failed to fetch file: " +:+ statusText resp),
         logged w [EvFetch (fileUrl b)])
  | Rejected msg => (Throw msg, logged w [EvFetch (fileUrl b)])
  | RejectedValue text => (ThrowValue text, logged w [EvFetch (fileUrl b)])
  | Forever => (Hang, logged w [EvFetch (fileUrl b)])
  end.
Proof.
  unfold print_os. rewrite Hinline, Hurl. simpl.
  unfold await_fetch, bind at 1 2 3, emit, await at 1. fold (logged w [EvFetch (fileUrl b)]).
  destruct (fetch e (fileUrl b)) as [resp| | |]; try reflexivity.
  destruct (ok resp); simpl; [|reflexivity].
  unfold bind at 1 2, await at 1.
  destruct (buffer resp); reflexivity.
Qed.

Hypothesis Hip : truthy (printerIp b) = true.

Lemma print_ipp_remote :
  print_ipp e b w =
  match fetch e (fileUrl b) with
  | Fulfilled resp =>
      if ok resp then
        match buffer resp with
        | Fulfilled buf => submit e b buf (logged w [EvFetch (fileUrl b)])
        | Rejected msg => (Throw msg, logged w [EvFetch (fileUrl b)])
        | RejectedValue text => (ThrowValue text, logged w [EvFetch (fileUrl b)])
        | Forever => (Hang, logged w [EvFetch (fileUrl b)])
        end
      else (Throw "Failed to fetch fileUrl", logged w [EvFetch (fileUrl b)])
  | Rejected msg => (Throw msg, logged w [EvFetch (fileUrl b)])
  | RejectedValue text => (ThrowValue text, logged w [EvFetch (fileUrl b)])
  | Forever => (Hang, logged w [EvFetch (fileUrl b)])
  end.
Proof.
  unfold print_ipp. rewrite Hip, Hinline, Hurl. simpl.
  unfold await_fetch, bind at 1 2 3, emit, await at 1. fold (logged w [EvFetch (fileUrl b)]).
  destruct (fetch e (fileUrl b)) as [resp| | |]; try reflexivity.
  destruct (ok resp); simpl; [|reflexivity].
  unfold bind at 1, await at 1.
  destruct (buffer resp); reflexivity.
Qed.
End RemoteSource.

(** ** The socket exchange *)

Lemma on_connect_string (r : string) (w : world) :
  on_connect (JStr r) w =
  (Next tt, logged w [EvSocketWrite (decodeInline r); EvSocketEnd]).
Proof.
  unfold on_connect, decodeInline, bind, emit, logged.
  destruct (match_data_url r); simpl; by rewrite <- app_assoc.
Qed.

Lemma socket_loop_string (r : string) (evs : list socket_event) :
  forall (armed : bool) (p : promise) (w : world),
    socket_loop (JStr r) evs armed p w =
    (Next (promise_after evs p),
     logged w (if armed && existsb is_connect evs
               then [EvSocketWrite (decodeInline r); EvSocketEnd]
               else [])).
Proof.
  induction evs as [|[ | |msg] evs IH]; intros armed p w.
  - simpl. by rewrite andb_false_r, logged_nil.
  - cbn [socket_loop promise_after existsb is_connect orb].
    unfold bind. destruct armed.
    + rewrite on_connect_string, IH. simpl. by rewrite logged_logged, app_nil_r.
    + unfold ret. rewrite IH. reflexivity.
  - cbn [socket_loop promise_after existsb is_connect orb]. apply IH.
  - cbn [socket_loop promise_after existsb is_connect orb]. apply IH.
Qed.

Lemma promise_after_settled (evs : list socket_event) (p : promise) :
  p <> Pending -> promise_after evs p = p.
Proof.
  revert p. induction evs as [|[ | |msg] evs IH]; intros p Hp; simpl; auto.
  - rewrite IH; destruct p; simpl; congruence.
  - rewrite IH; destruct p; simpl; congruence.
Qed.

Lemma promise_after_connects (pre rest : list socket_event) (p : promise) :
  Forall (fun ev => ev = SockConnect) pre ->
  promise_after (pre ++ rest) p = promise_after rest p.
Proof.
  induction 1 as [|ev pre Hev _ IH]; [reflexivity|]. subst ev. exact IH.
Qed.

Lemma promise_after_resolved (evs : list socket_event) :
  promise_after evs Pending = Resolved <-> closed_first evs.
Proof.
  split.
  - induction evs as [|[ | |msg] evs IH]; simpl; intros H.
    + discriminate.
    + destruct (IH H) as (pre & post & -> & Hpre).
      exists (SockConnect :: pre), post. split; [reflexivity|]. by constructor.
    + exists [], evs. split; [reflexivity|constructor].
    + rewrite promise_after_settled in H; discriminate.
  - intros (pre & post & -> & Hpre).
    rewrite promise_after_connects by exact Hpre. simpl.
    by apply promise_after_settled.
Qed.


Lemma truthy_string (r : string) : r <> "" -> truthy (JStr r) = true.
Proof. intros H. simpl. by apply negb_true_iff, String.eqb_neq. Qed.

Lemma print_tcp_run (e : env) (b : body) (w : world) (r : string) :
  truthy (printerIp b) = true -> raw b = JStr r -> r <> "" ->
  print_tcp e b w =
  (match promise_after (socket_events e (printerIp b)) Pending with
   | Resolved => Next (sent "tcp" "Raw TCP sent to printer")
   | RejectedWith msg => Throw msg
   | Pending => Hang
   end,
   logged w (tcp_events (printerIp b) r (socket_events e (printerIp b)))).
Proof.
  intros Hip Hraw Hr. unfold print_tcp. rewrite Hip, Hraw, (truthy_string r Hr).
  simpl. unfold send_raw, bind at 1 2 3, emit at 1.
  rewrite socket_loop_string. simpl.
  unfold tcp_events, logged. simpl. rewrite <- app_assoc. simpl.
  destruct (promise_after (socket_events e (printerIp b)) Pending); reflexivity.
Qed.

Lemma existsb_is_connect (evs : list socket_event) :
  existsb is_connect evs = true <-> In SockConnect evs.
Proof.
  rewrite existsb_exists. split.
  - intros ([ | |msg] & Hin & Hc); try discriminate. exact Hin.
  - intros Hin. exists SockConnect. by split.
Qed.

(** The console entry the [catch] block adds when the socket promise is
    rejected. *)
Lemma post_print_tcp (e : env) (b : body) (w : world) (r : string) :
  declared_mode b = Some RAW_SOCKET ->
  truthy (printerIp b) = true -> raw b = JStr r -> r <> "" ->
  post_print e b w =
  match promise_after (socket_events e (printerIp b)) Pending with
  | Resolved =>
      (Responded (sent "tcp" "Raw TCP sent to printer"),
       logged w (tcp_events (printerIp b) r (socket_events e (printerIp b))))
  | RejectedWith msg =>
      (Responded (server_error msg),
       logged w (tcp_events (printerIp b) r (socket_events e (printerIp b))
                 ++ [EvConsoleError msg]))
  | Pending =>
      (NoResponse,
       logged w (tcp_events (printerIp b) r (socket_events e (printerIp b))))
  end.
Proof.
  intros Hm Hip Hraw Hr. unfold post_print, try_catch.
  rewrite (print_try_tcp e b Hm), (print_tcp_run e b w r Hip Hraw Hr).
  destruct (promise_after _ Pending); try reflexivity.
  unfold logged. simpl. by rewrite <- app_assoc.
Qed.


(** ** The regular expressions *)

Lemma append_nil_l (s : string) : "" +:+ s = s.
Proof. reflexivity. Qed.

Lemma append_cons (c : ascii) (s t : string) :
  String c s +:+ t = String c (s +:+ t).
Proof. reflexivity. Qed.

Lemma strip_literal_spec (lit s rest : string) :
  strip_literal lit s = Some rest <-> s = lit +:+ rest.
Proof.
  revert s. induction lit as [|a lit IH]; intros s; simpl.
  - rewrite append_nil_l. split; congruence.
  - rewrite append_cons. destruct s as [|c s]; [split; discriminate|].
    destruct (Ascii.eqb_spec a c) as [->|Hne].
    + rewrite IH. split; congruence.
    + split; [discriminate|]. intros H. injection H as -> _.
      by destruct Hne.
Qed.

Lemma literal_then_rest_spec (lit s rest : string) :
  literal_then_rest lit s = Some rest <->
  s = lit +:+ rest /\ dot_star_to_end rest = true.
Proof.
  unfold literal_then_rest.
  destruct (strip_literal lit s) as [r|] eqn:Hs.
  - apply strip_literal_spec in Hs. subst s.
    destruct (dot_star_to_end r) eqn:Hr; split.
    + intros H. injection H as ->. by split.
    + intros [H _]. by apply String.app_inj in H as ->.
    + discriminate.
    + intros [H Hd]. apply String.app_inj in H as ->. congruence.
  - split; [discriminate|]. intros [H _].
    apply strip_literal_spec in H. congruence.
Qed.

(** A match of the fileBase64 pattern splits the string at an occurrence of
    [base64,] whose tail holds no line terminator. *)
Lemma match_base64_Some (s b64 : string) :
  match_base64 s = Some b64 ->
  exists pre, s = pre +:+ "base64," +:+ b64 /\ dot_star_to_end b64 = true.
Proof.
  induction s as [|c s IH]; simpl.
  - discriminate.
  - destruct (literal_then_rest "base64," (String c s)) as [r|] eqn:Hl.
    + intros H. injection H as ->.
      apply literal_then_rest_spec in Hl as [Hl Hd].
      exists "". by split.
    + intros H. destruct (IH H) as (pre & -> & Hd).
      exists (String c pre). by split.
Qed.

(** No match means that no occurrence of [base64,] has a tail free of line
    terminators. *)
Lemma match_base64_None (s : string) :
  match_base64 s = None ->
  forall pre rest, s = pre +:+ "base64," +:+ rest -> dot_star_to_end rest = false.
Proof.
  induction s as [|c s IH]; intros Hm pre rest Hs.
  - destruct pre; discriminate.
  - simpl in Hm.
    destruct (literal_then_rest "base64," (String c s)) as [r|] eqn:Hl;
      [discriminate|].
    destruct pre as [|a pre].
    + destruct (dot_star_to_end rest) eqn:Hd; [|reflexivity].
      assert (literal_then_rest "base64," (String c s) = Some rest) as H
        by (apply literal_then_rest_spec; by split).
      congruence.
    + rewrite append_cons in Hs. injection Hs as -> Hs. by apply (IH Hm pre rest).
Qed.





(** ** The answers of the os and ipp branches *)

Lemma try_catch_ext (m m' : M Res.t) (w : world) :
  m w = m' w -> try_catch m w = try_catch m' w.
Proof. unfold try_catch. by intros ->. Qed.

Lemma try_catch_spool (e : env) (b : body) (buf : list byte) (w : world) :
  try_catch (spool e b buf) w = spool_outcome e b buf w.
Proof.
  unfold try_catch, spool_outcome. rewrite spool_run.
  destruct (pdf_print e (tmp_path e) (printer_option b)); reflexivity.
Qed.

Lemma try_catch_submit (e : env) (b : body) (buf : list byte) (w : world) :
  try_catch (submit e b buf) w = submit_outcome e b buf w.
Proof.
  unfold try_catch, submit_outcome. rewrite submit_run.
  destruct (ipp_execute e (ipp_url b) "Print-Job" (ipp_job buf));
    try reflexivity; unfold logged; simpl; by rewrite <- app_assoc.
Qed.

Lemma spool_outcome_trace (e : env) (b : body) (buf : list byte) (w : world) :
  trace (snd (spool_outcome e b buf w)) = trace w ++ spool_events e b buf.
Proof.
  unfold spool_outcome, spool_events.
  destruct (pdf_print e (tmp_path e) (printer_option b)); simpl;
    rewrite <- ?app_assoc; simpl; by rewrite ?app_nil_r.
Qed.

Lemma spool_outcome_files (e : env) (b : body) (buf : list byte) (w : world) :
  files (snd (spool_outcome e b buf w)) =
  match pdf_print e (tmp_path e) (printer_option b) with
  | Fulfilled _ =>
      if unlink_ok e (tmp_path e)
      then delete (tmp_path e) (<[tmp_path e := buf]> (files w))
      else <[tmp_path e := buf]> (files w)
  | _ => <[tmp_path e := buf]> (files w)
  end.
Proof.
  unfold spool_outcome.
  destruct (pdf_print e (tmp_path e) (printer_option b)); reflexivity.
Qed.

Lemma submit_outcome_trace (e : env) (b : body) (buf : list byte) (w : world) :
  exists rest,
    trace (snd (submit_outcome e b buf w)) =
    trace w ++ EvIppExecute (ipp_url b) "Print-Job" (ipp_job buf) :: rest /\
    Forall (fun ev => is_fetch ev = false) rest.
Proof.
  unfold submit_outcome.
  destruct (ipp_execute e (ipp_url b) "Print-Job" (ipp_job buf)); simpl;
    eexists; (split; [reflexivity|]); repeat constructor.
Qed.

Section InlineAnswers.
Variables (e : env) (b : body) (w : world) (s : string).
Hypothesis Hs : fileBase64 b = JStr s.
Hypothesis Hne : s <> "".

Lemma inline_truthy : truthy (fileBase64 b) = true.
Proof. rewrite Hs. by apply truthy_string. Qed.

Lemma post_print_os_inline (b64 : string) :
  declared_mode b = Some OS -> match_base64 s = Some b64 ->
  post_print e b w = spool_outcome e b (buffer_from_base64 b64) w.
Proof.
  intros Hm Hb. unfold post_print. rewrite (print_try_os e b Hm).
  rewrite <- try_catch_spool. apply try_catch_ext.
  by apply (print_os_inline_match e b w inline_truthy s).
Qed.

Lemma post_print_os_invalid :
  declared_mode b = Some OS -> match_base64 s = None ->
  post_print e b w = (Responded (bad_request "Invalid fileBase64 payload"), w).
Proof.
  intros Hm Hb. unfold post_print, try_catch. rewrite (print_try_os e b Hm).
  by rewrite (print_os_inline_no_match e b w inline_truthy s).
Qed.

Lemma post_print_ipp_inline (b64 : string) :
  declared_mode b = Some IPP -> truthy (printerIp b) = true ->
  match_base64 s = Some b64 ->
  post_print e b w = submit_outcome e b (buffer_from_base64 b64) w.
Proof.
  intros Hm Hip Hb. unfold post_print. rewrite (print_try_ipp e b Hm).
  rewrite <- try_catch_submit. apply try_catch_ext.
  by apply (print_ipp_inline_match e b w inline_truthy Hip s).
Qed.

Lemma post_print_ipp_invalid :
  declared_mode b = Some IPP -> truthy (printerIp b) = true ->
  match_base64 s = None ->
  post_print e b w = (Responded (bad_request "Invalid fileBase64"), w).
Proof.
  intros Hm Hip Hb. unfold post_print, try_catch. rewrite (print_try_ipp e b Hm).
  by rewrite (print_ipp_inline_no_match e b w inline_truthy Hip s).
Qed.
End InlineAnswers.

(** ** Inline sources *)

(** C3, as the code has it. For a non-empty string in fileBase64, in os
    mode or in ipp mode with printerIp: when the string has no occurrence
    of [base64,] followed by a tail without line terminators, the answer is
    status 400 with an "Invalid fileBase64" message and nothing else
    happens; otherwise the payload handed to the driver is
    [Buffer.from(tail, "base64")] of the captured tail, a total function,
    and the job is not answered with a 400. *)
Theorem inline_source_resolution (e : env) (b : body) (w : world) (s : string) :
  fileBase64 b = JStr s -> s <> "" ->
  declared_mode b = Some OS \/
  (declared_mode b = Some IPP /\ present (printerIp b) = true) ->
  match match_base64 s with
  | None =>
      (forall pre rest,
         s = pre +:+ "base64," +:+ rest -> dot_star_to_end rest = false) /\
      exists msg,
        In msg invalid_encoding_messages /\
        post_print e b w = (Responded (bad_request msg), w)
  | Some b64 =>
      (exists pre, s = pre +:+ "base64," +:+ b64 /\ dot_star_to_end b64 = true) /\
      (forall msg, fst (post_print e b w) <> Responded (bad_request msg)) /\
      (declared_mode b = Some OS ->
       exists rest,
         trace (snd (post_print e b w)) =
         trace w ++ EvMkdir (tmp_dir e) ::
                    EvWriteFile (tmp_path e) (buffer_from_base64 b64) ::
                    EvPrint (tmp_path e) (printer_option b) :: rest) /\
      (declared_mode b = Some IPP ->
       exists rest,
         trace (snd (post_print e b w)) =
         trace w ++ EvIppExecute (ipp_url b) "Print-Job"
                      (ipp_job (buffer_from_base64 b64)) :: rest)
  end.
Proof.
  intros Hs Hne Hmode.
  destruct (match_base64 s) as [b64|] eqn:Hm.
  - split; [by apply match_base64_Some|].
    destruct Hmode as [Hos|[Hipp Hip]].
    + rewrite (post_print_os_inline e b w s Hs Hne b64 Hos Hm).
      split; [|split].
      * intros msg. unfold spool_outcome, sent, server_error, server_error_without_message, bad_request.
        destruct (pdf_print e (tmp_path e) (printer_option b)); simpl; congruence.
      * intros _. rewrite spool_outcome_trace. unfold spool_events. simpl. eauto.
      * congruence.
    + rewrite (post_print_ipp_inline e b w s Hs Hne b64 Hipp Hip Hm).
      split; [|split].
      * intros msg. unfold submit_outcome, sent, server_error, server_error_without_message, bad_request.
        destruct (ipp_execute e (ipp_url b) "Print-Job" _); simpl; congruence.
      * congruence.
      * intros _.
        destruct (submit_outcome_trace e b (buffer_from_base64 b64) w)
          as (rest & Ht & _).
        eauto.
  - split; [by apply match_base64_None|].
    destruct Hmode as [Hos|[Hipp Hip]].
    + rewrite (post_print_os_invalid e b w s Hs Hne Hos Hm).
      eexists. split; [|reflexivity]. simpl. auto.
    + rewrite (post_print_ipp_invalid e b w s Hs Hne Hipp Hip Hm).
      eexists. split; [|reflexivity]. simpl. auto.
Qed.

Lemma inline_source_resolution_witness :
  exists rest,
    trace (snd (post_print env_all_ok job_os_inline empty_world)) =
    [] ++ EvMkdir "/srv/print/tmp" ::
          EvWriteFile "/srv/print/tmp/print-1700000000000.pdf" sample_pdf ::
          EvPrint "/srv/print/tmp/print-1700000000000.pdf" None :: rest.
Proof.
  apply (inline_source_resolution env_all_ok job_os_inline empty_world
           "application/pdf;base64,JVBERi0x");
    [reflexivity | discriminate | left; reflexivity | reflexivity].
Defined.

(** C3, as stated, fails: the string [base64,JVBERi0x] has no media type
    and no [;base64,] delimiter, yet the os branch accepts it and writes the
    six decoded bytes to the temporary file. *)
Lemma inline_pattern_not_required :
  inline_pattern_present "base64,JVBERi0x" = false /\
  fst (post_print env_all_ok job_os_bare empty_world) =
    Responded (sent "os" "Sent to OS print spooler") /\
  In (EvWriteFile "/srv/print/tmp/print-1700000000000.pdf" sample_pdf)
     (trace (snd (post_print env_all_ok job_os_bare empty_world))).
Proof.
  split; [reflexivity|]. split; [reflexivity|].
  vm_compute. auto.
Qed.

(** ** Which source is used *)

Lemma declared_mode_without_fileUrl (b : body) :
  declared_mode (without_fileUrl b) = declared_mode b.
Proof. reflexivity. Qed.

Lemma print_os_ignores_fileUrl (e : env) (b : body) (w : world) :
  truthy (fileBase64 b) = true ->
  print_os e b w = print_os e (without_fileUrl b) w.
Proof.
  intros H. unfold print_os. simpl. by rewrite H, !andb_false_r.
Qed.

Lemma print_ipp_ignores_fileUrl (e : env) (b : body) (w : world) :
  truthy (fileBase64 b) = true ->
  print_ipp e b w = print_ipp e (without_fileUrl b) w.
Proof.
  intros H. unfold print_ipp. simpl. by rewrite H, !andb_false_r.
Qed.

Lemma spool_events_no_fetch (e : env) (b : body) (buf : list byte) :
  Forall (fun ev => is_fetch ev = false) (spool_events e b buf).
Proof.
  unfold spool_events.
  destruct (pdf_print e (tmp_path e) (printer_option b)); repeat constructor.
Qed.

(** With fileBase64 present the os branch adds no fetch to the trace. *)
Lemma print_os_inline_no_fetch (e : env) (b : body) (w : world) :
  declared_mode b = Some OS -> truthy (fileBase64 b) = true ->
  exists new,
    trace (snd (post_print e b w)) = trace w ++ new /\
    Forall (fun ev => is_fetch ev = false) new.
Proof.
  intros Hm Ht. destruct (fileBase64 b) as [ | |x|z|o|s] eqn:Hb.
  1-5: unfold post_print, try_catch; rewrite (print_try_os e b Hm);
       rewrite (print_os_inline_not_string e b w);
       [ | by rewrite Hb | rewrite Hb; congruence ];
       simpl; eexists; (split; [reflexivity|]); repeat constructor.
  assert (Hne : s <> "").
  { intros ->. discriminate. }
  destruct (match_base64 s) as [b64|] eqn:Hs.
  - rewrite (post_print_os_inline e b w s Hb Hne b64 Hm Hs), spool_outcome_trace.
    eexists. split; [reflexivity|]. apply spool_events_no_fetch.
  - rewrite (post_print_os_invalid e b w s Hb Hne Hm Hs). simpl.
    exists []. split; [by rewrite app_nil_r|constructor].
Qed.

(** With fileBase64 present the ipp branch adds no fetch to the trace. *)
Lemma print_ipp_inline_no_fetch (e : env) (b : body) (w : world) :
  declared_mode b = Some IPP -> truthy (fileBase64 b) = true ->
  exists new,
    trace (snd (post_print e b w)) = trace w ++ new /\
    Forall (fun ev => is_fetch ev = false) new.
Proof.
  intros Hm Ht. destruct (truthy (printerIp b)) eqn:Hip.
  2: { unfold post_print, try_catch. rewrite (print_try_ipp e b Hm).
       unfold print_ipp. rewrite Hip. simpl.
       exists []. split; [by rewrite app_nil_r|constructor]. }
  destruct (fileBase64 b) as [ | |x|z|o|s] eqn:Hb.
  1-5: unfold post_print, try_catch; rewrite (print_try_ipp e b Hm);
       rewrite (print_ipp_inline_not_string e b w);
       [ | by rewrite Hb | exact Hip | rewrite Hb; congruence ];
       simpl; eexists; (split; [reflexivity|]); repeat constructor.
  assert (Hne : s <> "").
  { intros ->. discriminate. }
  destruct (match_base64 s) as [b64|] eqn:Hs.
  - rewrite (post_print_ipp_inline e b w s Hb Hne b64 Hm Hip Hs).
    destruct (submit_outcome_trace e b (buffer_from_base64 b64) w)
      as (rest & -> & Hrest).
    eexists. split; [reflexivity|]. by constructor.
  - rewrite (post_print_ipp_invalid e b w s Hb Hne Hm Hip Hs). simpl.
    exists []. split; [by rewrite app_nil_r|constructor].
Qed.

(** C9. In os and ipp mode, when fileBase64 and fileUrl are both present,
    fileBase64 is the source: the request runs exactly as the same request
    without fileUrl, no fetch enters the trace, and when fileBase64 matches
    the pattern the bytes handed to the driver are those decoded from it. *)
Theorem inline_source_takes_precedence (e : env) (b : body) (w : world) :
  present (fileBase64 b) = true -> present (fileUrl b) = true ->
  declared_mode b = Some OS \/ declared_mode b = Some IPP ->
  post_print e b w = post_print e (without_fileUrl b) w /\
  (exists new,
     trace (snd (post_print e b w)) = trace w ++ new /\
     Forall (fun ev => is_fetch ev = false) new) /\
  (forall s b64,
     fileBase64 b = JStr s -> match_base64 s = Some b64 ->
     (declared_mode b = Some OS ->
      In (EvWriteFile (tmp_path e) (buffer_from_base64 b64))
         (trace (snd (post_print e b w)))) /\
     (declared_mode b = Some IPP -> present (printerIp b) = true ->
      In (EvIppExecute (ipp_url b) "Print-Job" (ipp_job (buffer_from_base64 b64)))
         (trace (snd (post_print e b w))))).
Proof.
  unfold present. intros Hb Hu Hmode. split; [|split].
  - unfold post_print. destruct Hmode as [Hm|Hm].
    + rewrite (print_try_os e b Hm), (print_try_os e (without_fileUrl b) Hm).
      apply try_catch_ext. by apply print_os_ignores_fileUrl.
    + rewrite (print_try_ipp e b Hm), (print_try_ipp e (without_fileUrl b) Hm).
      apply try_catch_ext. by apply print_ipp_ignores_fileUrl.
  - destruct Hmode as [Hm|Hm].
    + by apply print_os_inline_no_fetch.
    + by apply print_ipp_inline_no_fetch.
  - intros s b64 Hs Hmatch.
    assert (Hne : s <> "").
    { intros ->. rewrite Hs in Hb. discriminate. }
    split.
    + intros Hm.
      rewrite (post_print_os_inline e b w s Hs Hne b64 Hm Hmatch),
        spool_outcome_trace.
      apply in_or_app. right. unfold spool_events. simpl. auto.
    + intros Hm Hip.
      rewrite (post_print_ipp_inline e b w s Hs Hne b64 Hm Hip Hmatch).
      destruct (submit_outcome_trace e b (buffer_from_base64 b64) w)
        as (rest & -> & _).
      apply in_or_app. right. simpl. auto.
Qed.

Lemma inline_source_takes_precedence_witness :
  present (fileBase64 job_os_both) = true /\
  present (fileUrl job_os_both) = true /\
  post_print env_all_ok job_os_both empty_world =
  post_print env_all_ok (without_fileUrl job_os_both) empty_world.
Proof.
  split; [reflexivity|]. split; [reflexivity|].
  apply (inline_source_takes_precedence env_all_ok job_os_both empty_world);
    [reflexivity | reflexivity | left; reflexivity].
Defined.

(** ** Remote sources *)

(** The answer of the os branch for a remote source, by what the download
    gives. *)
Lemma post_print_os_remote (e : env) (b : body) (w : world) :
  declared_mode b = Some OS ->
  truthy (fileBase64 b) = false -> truthy (fileUrl b) = true ->
  post_print e b w =
  match fetch e (fileUrl b) with
  | Fulfilled resp =>
      if ok resp then
        match buffer resp with
        | Fulfilled buf => spool_outcome e b buf (logged w [EvFetch (fileUrl b)])
        | Rejected msg =>
            (Responded (server_error msg),
             logged w [EvFetch (fileUrl b); EvConsoleError msg])
        | RejectedValue text =>
            (Responded server_error_without_message,
             logged w [EvFetch (fileUrl b); EvConsoleError text])
        | Forever => (NoResponse, logged w [EvFetch (fileUrl b)])
        end
      else
        (Responded (server_error ("Failed to fetch file: " +:+ statusText resp)),
         logged w [EvFetch (fileUrl b);
                   EvConsoleError ("Failed to fetch file: " +:+ statusText resp)])
  | Rejected msg =>
      (Responded (server_error msg),
       logged w [EvFetch (fileUrl b); EvConsoleError msg])
  | RejectedValue text =>
      (Responded server_error_without_message,
       logged w [EvFetch (fileUrl b); EvConsoleError text])
  | Forever => (NoResponse, logged w [EvFetch (fileUrl b)])
  end.
Proof.
  intros Hm Hb Hu. unfold post_print. rewrite (print_try_os e b Hm).
  destruct (fetch e (fileUrl b)) as [resp|msg|text|] eqn:Hf.
  - destruct (ok resp) eqn:Hok.
    + destruct (buffer resp) as [buf|msg|text|] eqn:Hbuf.
      * unfold try_catch at 1.
        rewrite (print_os_remote e b w Hb Hu), Hf, Hok, Hbuf.
        exact (try_catch_spool e b buf (logged w [EvFetch (fileUrl b)])).
      * unfold try_catch.
        rewrite (print_os_remote e b w Hb Hu), Hf, Hok, Hbuf.
        unfold logged. simpl. by rewrite <- app_assoc.
      * unfold try_catch.
        rewrite (print_os_remote e b w Hb Hu), Hf, Hok, Hbuf.
        unfold logged. simpl. by rewrite <- app_assoc.
      * unfold try_catch.
        by rewrite (print_os_remote e b w Hb Hu), Hf, Hok, Hbuf.
    + unfold try_catch. rewrite (print_os_remote e b w Hb Hu), Hf, Hok.
      unfold logged. simpl. by rewrite <- app_assoc.
  - unfold try_catch. rewrite (print_os_remote e b w Hb Hu), Hf.
    unfold logged. simpl. by rewrite <- app_assoc.
  - unfold try_catch. rewrite (print_os_remote e b w Hb Hu), Hf.
    unfold logged. simpl. by rewrite <- app_assoc.
  - unfold try_catch. by rewrite (print_os_remote e b w Hb Hu), Hf.
Qed.

(** The answer of the ipp branch for a remote source. *)
Lemma post_print_ipp_remote (e : env) (b : body) (w : world) :
  declared_mode b = Some IPP -> truthy (printerIp b) = true ->
  truthy (fileBase64 b) = false -> truthy (fileUrl b) = true ->
  post_print e b w =
  match fetch e (fileUrl b) with
  | Fulfilled resp =>
      if ok resp then
        match buffer resp with
        | Fulfilled buf => submit_outcome e b buf (logged w [EvFetch (fileUrl b)])
        | Rejected msg =>
            (Responded (server_error msg),
             logged w [EvFetch (fileUrl b); EvConsoleError msg])
        | RejectedValue text =>
            (Responded server_error_without_message,
             logged w [EvFetch (fileUrl b); EvConsoleError text])
        | Forever => (NoResponse, logged w [EvFetch (fileUrl b)])
        end
      else
        (Responded (server_error "Failed to fetch fileUrl"),
         logged w [EvFetch (fileUrl b); EvConsoleError "Failed to fetch fileUrl"])
  | Rejected msg =>
      (Responded (server_error msg),
       logged w [EvFetch (fileUrl b); EvConsoleError msg])
  | RejectedValue text =>
      (Responded server_error_without_message,
       logged w [EvFetch (fileUrl b); EvConsoleError text])
  | Forever => (NoResponse, logged w [EvFetch (fileUrl b)])
  end.
Proof.
  intros Hm Hip Hb Hu. unfold post_print. rewrite (print_try_ipp e b Hm).
  destruct (fetch e (fileUrl b)) as [resp|msg|text|] eqn:Hf.
  - destruct (ok resp) eqn:Hok.
    + destruct (buffer resp) as [buf|msg|text|] eqn:Hbuf.
      * unfold try_catch at 1.
        rewrite (print_ipp_remote e b w Hb Hu Hip), Hf, Hok, Hbuf.
        exact (try_catch_submit e b buf (logged w [EvFetch (fileUrl b)])).
      * unfold try_catch.
        rewrite (print_ipp_remote e b w Hb Hu Hip), Hf, Hok, Hbuf.
        unfold logged. simpl. by rewrite <- app_assoc.
      * unfold try_catch.
        rewrite (print_ipp_remote e b w Hb Hu Hip), Hf, Hok, Hbuf.
        unfold logged. simpl. by rewrite <- app_assoc.
      * unfold try_catch.
        by rewrite (print_ipp_remote e b w Hb Hu Hip), Hf, Hok, Hbuf.
    + unfold try_catch. rewrite (print_ipp_remote e b w Hb Hu Hip), Hf, Hok.
      unfold logged. simpl. by rewrite <- app_assoc.
  - unfold try_catch. rewrite (print_ipp_remote e b w Hb Hu Hip), Hf.
    unfold logged. simpl. by rewrite <- app_assoc.
  - unfold try_catch. rewrite (print_ipp_remote e b w Hb Hu Hip), Hf.
    unfold logged. simpl. by rewrite <- app_assoc.
  - unfold try_catch. by rewrite (print_ipp_remote e b w Hb Hu Hip), Hf.
Qed.

(** C10. In os mode with a remote source, when the download fails (fetch
    rejects, the status is not a success, or the body cannot be read) the
    answer is status 500 and the request has added a fetch and a console
    entry to the trace and nothing else: no directory and no file were
    created. In every run of that branch a file is written only with the
    bytes of a successful download, after the fetch. *)
Theorem failed_download_creates_no_file (e : env) (b : body) (w : world) :
  declared_mode b = Some OS ->
  present (fileBase64 b) = false -> present (fileUrl b) = true ->
  (download_fails e b ->
   exists msg,
     post_print e b w =
     (Responded (server_error msg),
      World (files w) (dirs w)
            (trace w ++ [EvFetch (fileUrl b); EvConsoleError msg]))) /\
  (exists new,
     trace (snd (post_print e b w)) = trace w ++ EvFetch (fileUrl b) :: new /\
     forall path content,
       In (EvWriteFile path content) new ->
       exists resp,
         fetch e (fileUrl b) = Fulfilled resp /\ ok resp = true /\
         buffer resp = Fulfilled content).
Proof.
  unfold present. intros Hm Hb Hu.
  rewrite (post_print_os_remote e b w Hm Hb Hu). split.
  - intros [(msg & Hf)|[(resp & Hf & Hok)|(resp & msg & Hf & Hok & Hbuf)]];
      rewrite Hf; rewrite ?Hok, ?Hbuf; eauto.
  - destruct (fetch e (fileUrl b)) as [resp|msg|text|].
    + destruct (ok resp) eqn:Hok.
      * destruct (buffer resp) as [buf|msg|text|] eqn:Hbuf.
        -- rewrite spool_outcome_trace. simpl. rewrite <- app_assoc. simpl.
           eexists. split; [reflexivity|].
           intros path content Hin. exists resp.
           split; [reflexivity|]. split; [exact Hok|].
           unfold spool_events in Hin. simpl in Hin.
           destruct Hin as [H|[H|[H|Hin]]]; try discriminate.
           ++ injection H as _ <-. exact Hbuf.
           ++ destruct (pdf_print e (tmp_path e) (printer_option b));
                simpl in Hin; intuition discriminate.
        -- simpl. eexists. split; [reflexivity|].
           intros path content [H|[]]. discriminate.
        -- simpl. eexists. split; [reflexivity|].
           intros path content [H|[]]. discriminate.
        -- simpl. eexists. split; [reflexivity|]. intros path content [].
      * simpl. eexists. split; [reflexivity|].
        intros path content [H|[]]. discriminate.
    + simpl. eexists. split; [reflexivity|].
      intros path content [H|[]]. discriminate.
    + simpl. eexists. split; [reflexivity|].
      intros path content [H|[]]. discriminate.
    + simpl. eexists. split; [reflexivity|]. intros path content [].
Qed.

Lemma failed_download_creates_no_file_witness :
  download_fails (env_fetch_status "Not Found") job_os_remote /\
  exists msg,
    post_print (env_fetch_status "Not Found") job_os_remote empty_world =
    (Responded (server_error msg),
     World ∅ ∅ ([] ++ [EvFetch (JStr "http://bad.example/x.pdf");
                       EvConsoleError msg])).
Proof.
  assert (H : download_fails (env_fetch_status "Not Found") job_os_remote).
  { right. left. eexists. split; reflexivity. }
  split; [exact H|].
  apply (failed_download_creates_no_file (env_fetch_status "Not Found")
           job_os_remote empty_world);
    [reflexivity | reflexivity | reflexivity | exact H].
Defined.

(** ** The temporary file *)

Lemma spool_success_removes_file (e : env) (b : body) (buf : list byte)
    (w : world) :
  pdf_print e (tmp_path e) (printer_option b) = Fulfilled tt ->
  unlink_ok e (tmp_path e) = true ->
  files (snd (spool_outcome e b buf w)) !! tmp_path e = None.
Proof.
  intros H Hu. rewrite spool_outcome_files, H, Hu. apply lookup_delete_eq.
Qed.

Lemma spool_failure_keeps_file (e : env) (b : body) (buf : list byte)
    (w : world) (msg : string) :
  pdf_print e (tmp_path e) (printer_option b) = Rejected msg ->
  files (snd (spool_outcome e b buf w)) !! tmp_path e = Some buf /\
  ~ In (EvUnlink (tmp_path e)) (spool_events e b buf).
Proof.
  intros H. rewrite spool_outcome_files. unfold spool_events. rewrite H.
  split; [apply lookup_insert_eq|]. simpl. intuition discriminate.
Qed.

(** C1, at the failing input: the os job of the specification's first
    scenario, with a spooler call that rejects. The answer is status 500,
    no unlink is made, and the temporary file is still in the directory
    with the six bytes of the document. *)
Theorem temp_file_left_after_spooler_failure :
  fst (post_print env_spooler_fails job_os_inline empty_world) =
    Responded (server_error "Printer not found") /\
  files (snd (post_print env_spooler_fails job_os_inline empty_world))
    !! "/srv/print/tmp/print-1700000000000.pdf" = Some sample_pdf /\
  trace (snd (post_print env_spooler_fails job_os_inline empty_world)) =
    [EvMkdir "/srv/print/tmp";
     EvWriteFile "/srv/print/tmp/print-1700000000000.pdf" sample_pdf;
     EvPrint "/srv/print/tmp/print-1700000000000.pdf" None;
     EvConsoleError "Printer not found"].
Proof. repeat split; vm_compute; reflexivity. Qed.

(** The same job with a spooler call that succeeds: the file is gone. *)
Example temp_file_removed_after_success :
  fst (post_print env_all_ok job_os_inline empty_world) =
    Responded (sent "os" "Sent to OS print spooler") /\
  files (snd (post_print env_all_ok job_os_inline empty_world))
    !! "/srv/print/tmp/print-1700000000000.pdf" = None.
Proof. split; vm_compute; reflexivity. Qed.

(** C4, at the failing input: in ipp mode the answer to a fetch that is
    not [ok] carries the fixed message, whatever the status text [st] of
    the response; no IPP exchange is made. *)
Theorem ipp_fetch_failure_message_is_fixed (st : string) :
  post_print (env_fetch_status st) job_ipp_remote empty_world =
  (Responded (server_error "Failed to fetch fileUrl"),
   World ∅ ∅ [EvFetch (JStr "http://bad.example/x.pdf");
              EvConsoleError "Failed to fetch fileUrl"]).
Proof. reflexivity. Qed.

(** The os branch puts the status text of the response in its message. *)
Lemma os_fetch_failure_message (st : string) :
  post_print (env_fetch_status st) job_os_remote empty_world =
  (Responded (server_error ("Failed to fetch file: " +:+ st)),
   World ∅ ∅ [EvFetch (JStr "http://bad.example/x.pdf");
              EvConsoleError ("Failed to fetch file: " +:+ st)]).
Proof. reflexivity. Qed.

(** ** Names of temporary files *)

Lemma length_append (s t : string) :
  String.length (s +:+ t) = (String.length s + String.length t)%nat.
Proof.
  induction s as [|c s IH]; [reflexivity|].
  rewrite append_cons. simpl. by rewrite IH.
Qed.

Lemma append_inj_r (x s1 s2 : string) : s1 +:+ x = s2 +:+ x -> s1 = s2.
Proof.
  revert s2. induction s1 as [|a s1 IH]; intros [|c s2] H.
  - reflexivity.
  - apply (f_equal String.length) in H. rewrite !length_append in H.
    simpl in H. lia.
  - apply (f_equal String.length) in H. rewrite !length_append in H.
    simpl in H. lia.
  - rewrite !append_cons in H. injection H as -> H. f_equal. by apply IH.
Qed.

(** In one directory the name of the temporary file determines the clock
    reading it was made from. *)
Lemma tmp_path_inj (e1 e2 : env) :
  dirname e1 = dirname e2 -> tmp_path e1 = tmp_path e2 ->
  date_now e1 = date_now e2.
Proof.
  unfold tmp_path, tmp_dir. intros -> H.
  do 2 apply String.app_inj in H.
  apply append_inj_r in H. by apply pretty_Z_inj in H.
Qed.

Lemma events_of_app (e : env) (b : body) (w : world) (new : list event) :
  trace (snd (post_print e b w)) = trace w ++ new -> events_of e b w = new.
Proof. unfold events_of. intros ->. apply drop_app_length. Qed.

Lemma writes_only_spool_events (e : env) (b : body) (buf : list byte) :
  writes_only (tmp_path e) (spool_events e b buf).
Proof.
  unfold writes_only, spool_events. intros p content Hin. simpl in Hin.
  destruct Hin as [H|[H|[H|Hin]]]; try discriminate.
  - by injection H as <- _.
  - destruct (pdf_print e (tmp_path e) (printer_option b)); simpl in Hin;
      intuition discriminate.
Qed.

(** Every file an os request writes is the temporary file named after the
    clock reading of that request. *)
Lemma os_request_writes_only_tmp_path (e : env) (b : body) (w : world) :
  declared_mode b = Some OS -> writes_only (tmp_path e) (events_of e b w).
Proof.
  intros Hm.
  assert (Hnone : forall evs : list event,
            Forall (fun ev => is_write_file ev = false) evs ->
            writes_only (tmp_path e) evs).
  { intros evs Hall p content Hin.
    rewrite List.Forall_forall in Hall. apply Hall in Hin. discriminate. }
  destruct (truthy (fileBase64 b)) eqn:Hb.
  - destruct (fileBase64 b) as [ | |x|z|o|s] eqn:Hfb.
    1-5: rewrite (events_of_app e b w [EvConsoleError "fileBase64.match is not a function"]);
         [ apply Hnone; repeat constructor
         | unfold post_print, try_catch; rewrite (print_try_os e b Hm);
           rewrite (print_os_inline_not_string e b w);
           [ reflexivity | by rewrite Hfb | rewrite Hfb; congruence ] ].
    assert (Hne : s <> "") by (intros ->; discriminate).
    destruct (match_base64 s) as [b64|] eqn:Hs.
    + rewrite (events_of_app e b w (spool_events e b (buffer_from_base64 b64))).
      * apply writes_only_spool_events.
      * by rewrite (post_print_os_inline e b w s Hfb Hne b64 Hm Hs),
          spool_outcome_trace.
    + rewrite (events_of_app e b w []); [by apply Hnone|].
      rewrite (post_print_os_invalid e b w s Hfb Hne Hm Hs). simpl.
      by rewrite app_nil_r.
  - destruct (truthy (fileUrl b)) eqn:Hu.
    + assert (Hfetch : forall tail,
                writes_only (tmp_path e) tail ->
                writes_only (tmp_path e) (EvFetch (fileUrl b) :: tail)).
      { intros tail Ht p content [H|Hin]; [discriminate|by apply (Ht p content)]. }
      pose proof (post_print_os_remote e b w Hm Hb Hu) as Hrun.
      destruct (fetch e (fileUrl b)) as [resp|msg|text|].
      * destruct (ok resp).
        -- destruct (buffer resp) as [buf|msg|text|].
           ++ rewrite (events_of_app e b w (EvFetch (fileUrl b) :: spool_events e b buf)).
              ** apply Hfetch, writes_only_spool_events.
              ** rewrite Hrun, spool_outcome_trace. simpl.
                 by rewrite <- app_assoc.
           ++ rewrite (events_of_app e b w [EvFetch (fileUrl b); EvConsoleError msg]);
                [apply Hnone; repeat constructor|by rewrite Hrun].
           ++ rewrite (events_of_app e b w [EvFetch (fileUrl b); EvConsoleError text]);
                [apply Hnone; repeat constructor|by rewrite Hrun].
           ++ rewrite (events_of_app e b w [EvFetch (fileUrl b)]);
                [apply Hnone; repeat constructor|by rewrite Hrun].
        -- rewrite (events_of_app e b w
                      [EvFetch (fileUrl b);
                       EvConsoleError ("Failed to fetch file: " +:+ statusText resp)]);
             [apply Hnone; repeat constructor|by rewrite Hrun].
      * rewrite (events_of_app e b w [EvFetch (fileUrl b); EvConsoleError msg]);
          [apply Hnone; repeat constructor|by rewrite Hrun].
      * rewrite (events_of_app e b w [EvFetch (fileUrl b); EvConsoleError text]);
          [apply Hnone; repeat constructor|by rewrite Hrun].
      * rewrite (events_of_app e b w [EvFetch (fileUrl b)]);
          [apply Hnone; repeat constructor|by rewrite Hrun].
    + rewrite (events_of_app e b w []); [by apply Hnone|].
      unfold post_print, try_catch. rewrite (print_try_os e b Hm).
      unfold print_os. rewrite Hb, Hu. simpl. by rewrite app_nil_r.
Qed.

(** The temporary file is named after the clock and nothing else: two os
    requests served from the same directory write files with different
    names when their readings of [Date.now()] differ. *)
Theorem temp_file_names_differ_when_clock_differs
    (e1 e2 : env) (b1 b2 : body) (w1 w2 : world)
    (p1 p2 : string) (c1 c2 : list byte) :
  declared_mode b1 = Some OS -> declared_mode b2 = Some OS ->
  dirname e1 = dirname e2 -> date_now e1 <> date_now e2 ->
  In (EvWriteFile p1 c1) (events_of e1 b1 w1) ->
  In (EvWriteFile p2 c2) (events_of e2 b2 w2) ->
  p1 <> p2.
Proof.
  intros Hm1 Hm2 Hdir Hclock Hin1 Hin2 Heq.
  apply (os_request_writes_only_tmp_path e1 b1 w1 Hm1) in Hin1.
  apply (os_request_writes_only_tmp_path e2 b2 w2 Hm2) in Hin2.
  subst p1 p2. by apply Hclock, tmp_path_inj.
Qed.

Lemma temp_file_names_differ_witness :
  dirname env_all_ok = dirname env_next_ms /\
  "/srv/print/tmp/print-1700000000000.pdf" <>
  "/srv/print/tmp/print-1700000000001.pdf".
Proof.
  split; [reflexivity|].
  apply (temp_file_names_differ_when_clock_differs
           env_all_ok env_next_ms job_os_inline job_os_other
           empty_world empty_world _ _ sample_pdf other_pdf);
    [ reflexivity | reflexivity | reflexivity | discriminate
    | vm_compute; auto | vm_compute; auto ].
Defined.

(** C8 fails on the code. The name of the temporary file is meant to be
    unique, it carries the reading of [Date.now()], but the reading is all
    that tells two names apart: two distinct os requests that read the same
    millisecond write their documents to the same path. When the second is
    served while the first is still with the spooler, it replaces the
    content of the first job's file and then removes it. *)
Theorem temp_file_name_shared_within_a_millisecond :
  let path := "/srv/print/tmp/print-1700000000000.pdf" in
  let w1 := snd (post_print env_spooler_pending job_os_inline empty_world) in
  let w2 := snd (post_print env_all_ok job_os_other w1) in
  job_os_inline <> job_os_other /\
  date_now env_spooler_pending = date_now env_all_ok /\
  fst (post_print env_spooler_pending job_os_inline empty_world) = NoResponse /\
  In (EvWriteFile path sample_pdf)
     (events_of env_spooler_pending job_os_inline empty_world) /\
  files w1 !! path = Some sample_pdf /\
  In (EvWriteFile path other_pdf) (events_of env_all_ok job_os_other w1) /\
  files w2 !! path = None /\
  sample_pdf <> other_pdf.
Proof.
  split; [discriminate|]. repeat split; try (vm_compute; auto 10; fail).
  discriminate.
Qed.

(** The same happens when the two requests are served one after the
    other within a millisecond. *)
Example temp_file_name_reused_in_sequence :
  let w1 := snd (post_print env_all_ok job_os_inline empty_world) in
  In (EvWriteFile "/srv/print/tmp/print-1700000000000.pdf" sample_pdf)
     (events_of env_all_ok job_os_inline empty_world) /\
  In (EvWriteFile "/srv/print/tmp/print-1700000000000.pdf" other_pdf)
     (events_of env_all_ok job_os_other w1).
Proof.
  split; vm_compute; auto.
Qed.

(** ** Base64 *)

Section Induction.
Lemma string_ind4 (P : string -> Prop) :
  P "" ->
  (forall a, P (String a "")) ->
  (forall a b, P (String a (String b ""))) ->
  (forall a b c, P (String a (String b (String c "")))) ->
  (forall a b c d rest,
     P rest -> P (String a (String b (String c (String d rest))))) ->
  forall s, P s.
Proof.
  intros H0 H1 H2 H3 H4. fix IH 1.
  intros [|a [|b [|c [|d rest]]]];
    [exact H0 | apply H1 | apply H2 | apply H3 | apply H4; apply IH].
Qed.

Lemma list_ind3 {A : Type} (P : list A -> Prop) :
  P [] ->
  (forall x, P [x]) ->
  (forall x y, P [x; y]) ->
  (forall x y z rest, P rest -> P (x :: y :: z :: rest)) ->
  forall l, P l.
Proof.
  intros H0 H1 H2 H3. fix IH 1.
  intros [|x [|y [|z rest]]];
    [exact H0 | apply H1 | apply H2 | apply H3; apply IH].
Qed.
End Induction.

(** A character of the standard alphabet is read by Node's table with the
    same value, it is not the padding and not a line terminator, and it is
    the character of its value. *)
Lemma std_value_facts (c : ascii) (v : N) :
  std_value c = Some v ->
  unbase64 c = Some v /\ (v < 64)%N /\ b64char v = c /\
  Ascii.eqb c "=" = false /\ is_line_terminator c = false.
Proof.
  destruct c as [[] [] [] [] [] [] [] []]; vm_compute; intros H;
    try discriminate; injection H as <-; repeat split; reflexivity.
Qed.

Lemma b64char_std (v : N) : (v < 64)%N -> std_value (b64char v) = Some v.
Proof.
  intros H. destruct v as [|p]; [reflexivity|].
  do 6 (destruct p as [p|p|]; try reflexivity); lia.
Qed.

Lemma to_N_byte_of_N (n : N) : (n < 256)%N -> Byte.to_N (byte_of_N n) = n.
Proof.
  intros H. unfold byte_of_N. destruct (Byte.of_N n) as [x|] eqn:Hn.
  - by apply Byte.to_of_N.
  - apply Byte.of_N_None_iff in Hn. lia.
Qed.

Lemma byte_of_N_to_N (x : byte) : byte_of_N (Byte.to_N x) = x.
Proof. unfold byte_of_N. by rewrite Byte.of_to_N. Qed.

Lemma to_N_lt (x : byte) : (Byte.to_N x < 256)%N.
Proof. pose proof (Byte.to_N_bounded x). lia. Qed.

Lemma enc1_pack (a b : N) :
  (a < 64)%N -> (b < 64)%N -> enc1 (pack1 a b) = b64char a.
Proof.
  intros Ha Hb. unfold enc1, pack1. rewrite to_N_byte_of_N by div_mod_lia.
  f_equal. div_mod_lia.
Qed.

Lemma enc2_pack (a b c : N) :
  (a < 64)%N -> (b < 64)%N -> (c < 64)%N ->
  enc2 (pack1 a b) (pack2 b c) = b64char b.
Proof.
  intros Ha Hb Hc. unfold enc2, pack1, pack2.
  rewrite !to_N_byte_of_N by div_mod_lia. f_equal. div_mod_lia.
Qed.

Lemma enc3_pack (b c d : N) :
  (b < 64)%N -> (c < 64)%N -> (d < 64)%N ->
  enc3 (pack2 b c) (pack3 c d) = b64char c.
Proof.
  intros Hb Hc Hd. unfold enc3, pack2, pack3.
  rewrite !to_N_byte_of_N by div_mod_lia. f_equal. div_mod_lia.
Qed.

Lemma enc4_pack (c d : N) :
  (c < 64)%N -> (d < 64)%N -> enc4 (pack3 c d) = b64char d.
Proof.
  intros Hc Hd. unfold enc4, pack3. rewrite to_N_byte_of_N by div_mod_lia.
  f_equal. div_mod_lia.
Qed.

Lemma enc2_pack_padded (a b : N) :
  (a < 64)%N -> (b < 64)%N -> (b mod 2 ^ 4 = 0)%N ->
  enc2 (pack1 a b) x00 = b64char b.
Proof.
  intros Ha Hb H. change (2 ^ 4)%N with 16%N in H.
  unfold enc2, pack1. rewrite to_N_byte_of_N by div_mod_lia.
  f_equal. change (Byte.to_N x00) with 0%N. div_mod_lia.
Qed.

Lemma enc3_pack_padded (b c : N) :
  (b < 64)%N -> (c < 64)%N -> (c mod 2 ^ 2 = 0)%N ->
  enc3 (pack2 b c) x00 = b64char c.
Proof.
  intros Hb Hc H. change (2 ^ 2)%N with 4%N in H.
  unfold enc3, pack2. rewrite to_N_byte_of_N by div_mod_lia.
  f_equal. change (Byte.to_N x00) with 0%N. div_mod_lia.
Qed.

Lemma sextets_std (c : ascii) (v : N) (s : string) :
  std_value c = Some v -> sextets (String c s) = v :: sextets s.
Proof.
  intros H. destruct (std_value_facts c v H) as (Hu & _ & _ & Hp & _).
  simpl. by rewrite Hp, Hu.
Qed.

Lemma sextets_padding (s : string) : sextets (String "=" s) = [].
Proof. reflexivity. Qed.

Lemma is_base64_quad (a b c d : ascii) (rest : string) :
  is_base64 (String a (String b (String c (String d rest)))) =
  if Ascii.eqb d "=" then
    String.eqb rest "" && std_char a &&
    (if Ascii.eqb c "=" then low_bits_zero 4 b
     else std_char b && low_bits_zero 2 c)
  else
    std_char a && std_char b && std_char c && std_char d && is_base64 rest.
Proof. reflexivity. Qed.

Lemma std_char_value (c : ascii) :
  std_char c = true -> exists v, std_value c = Some v.
Proof. unfold std_char. destruct (std_value c); [eauto|discriminate]. Qed.

Lemma low_bits_zero_value (k : N) (c : ascii) :
  low_bits_zero k c = true ->
  exists v, std_value c = Some v /\ (v mod 2 ^ k = 0)%N.
Proof.
  unfold low_bits_zero. destruct (std_value c) as [v|]; [|discriminate].
  intros H. apply N.eqb_eq in H. eauto.
Qed.

(** Encoding the decoded bytes of a canonical base64 string gives the
    string back. *)
Lemma to_base64_buffer_from_base64 (s : string) :
  is_base64 s = true -> to_base64 (buffer_from_base64 s) = s.
Proof.
  unfold buffer_from_base64.
  induction s as [ |a|a b|a b c|a b c d rest IH] using string_ind4;
    try discriminate; [reflexivity|].
  rewrite is_base64_quad.
  destruct (Ascii.eqb_spec d "=") as [->|Hd].
  - intros H. apply andb_true_iff in H as [H Hlast].
    apply andb_true_iff in H as [Hrest Ha]. apply String.eqb_eq in Hrest as ->.
    apply std_char_value in Ha as [va Ha].
    destruct (std_value_facts a va Ha) as (_ & Hva & Hca & _).
    destruct (Ascii.eqb_spec c "=") as [->|Hc].
    + apply low_bits_zero_value in Hlast as (vb & Hb & Hzero).
      destruct (std_value_facts b vb Hb) as (_ & Hvb & Hcb & _).
      rewrite (sextets_std a va _ Ha), (sextets_std b vb _ Hb), sextets_padding.
      simpl. rewrite enc1_pack, enc2_pack_padded by assumption.
      by rewrite Hca, Hcb.
    + apply andb_true_iff in Hlast as [Hb Hlast].
      apply std_char_value in Hb as [vb Hb].
      apply low_bits_zero_value in Hlast as (vc & Hvc & Hzero).
      destruct (std_value_facts b vb Hb) as (_ & Hvb & Hcb & _).
      destruct (std_value_facts c vc Hvc) as (_ & Hvc' & Hcc & _).
      rewrite (sextets_std a va _ Ha), (sextets_std b vb _ Hb),
        (sextets_std c vc _ Hvc), sextets_padding.
      simpl. rewrite enc1_pack, enc2_pack, enc3_pack_padded by assumption.
      by rewrite Hca, Hcb, Hcc.
  - intros H. apply andb_true_iff in H as [H Hrest].
    apply andb_true_iff in H as [H Hd'].
    apply andb_true_iff in H as [H Hc].
    apply andb_true_iff in H as [Ha Hb].
    apply std_char_value in Ha as [va Ha]. apply std_char_value in Hb as [vb Hb].
    apply std_char_value in Hc as [vc Hc]. apply std_char_value in Hd' as [vd Hvd].
    destruct (std_value_facts a va Ha) as (_ & Hva & Hca & _).
    destruct (std_value_facts b vb Hb) as (_ & Hvb & Hcb & _).
    destruct (std_value_facts c vc Hc) as (_ & Hvc & Hcc & _).
    destruct (std_value_facts d vd Hvd) as (_ & Hvd' & Hcd & _).
    rewrite (sextets_std a va _ Ha), (sextets_std b vb _ Hb),
      (sextets_std c vc _ Hc), (sextets_std d vd _ Hvd).
    cbn [pack to_base64].
    rewrite enc1_pack, enc2_pack, enc3_pack, enc4_pack by assumption.
    by rewrite Hca, Hcb, Hcc, Hcd, (IH Hrest).
Qed.

Lemma pack1_enc (x y : byte) :
  pack1 (Byte.to_N x / 4) ((Byte.to_N x mod 4) * 16 + Byte.to_N y / 16) = x.
Proof.
  pose proof (to_N_lt x). pose proof (to_N_lt y). unfold pack1.
  rewrite <- (byte_of_N_to_N x) at 3. f_equal. div_mod_lia.
Qed.

Lemma pack2_enc (x y z : byte) :
  pack2 ((Byte.to_N x mod 4) * 16 + Byte.to_N y / 16)
        ((Byte.to_N y mod 16) * 4 + Byte.to_N z / 64) = y.
Proof.
  pose proof (to_N_lt x). pose proof (to_N_lt y). pose proof (to_N_lt z).
  unfold pack2. rewrite <- (byte_of_N_to_N y) at 3. f_equal. div_mod_lia.
Qed.

Lemma pack3_enc (y z : byte) :
  pack3 ((Byte.to_N y mod 16) * 4 + Byte.to_N z / 64) (Byte.to_N z mod 64) = z.
Proof.
  pose proof (to_N_lt y). pose proof (to_N_lt z).
  unfold pack3. rewrite <- (byte_of_N_to_N z) at 3. f_equal. div_mod_lia.
Qed.

Lemma enc1_std (x : byte) : std_value (enc1 x) = Some (Byte.to_N x / 4)%N.
Proof. pose proof (to_N_lt x). apply b64char_std. div_mod_lia. Qed.

Lemma enc2_std (x y : byte) :
  std_value (enc2 x y) =
  Some ((Byte.to_N x mod 4) * 16 + Byte.to_N y / 16)%N.
Proof.
  pose proof (to_N_lt x). pose proof (to_N_lt y).
  apply b64char_std. div_mod_lia.
Qed.

Lemma enc3_std (y z : byte) :
  std_value (enc3 y z) =
  Some ((Byte.to_N y mod 16) * 4 + Byte.to_N z / 64)%N.
Proof.
  pose proof (to_N_lt y). pose proof (to_N_lt z).
  apply b64char_std. div_mod_lia.
Qed.

Lemma enc4_std (z : byte) : std_value (enc4 z) = Some (Byte.to_N z mod 64)%N.
Proof. pose proof (to_N_lt z). apply b64char_std. div_mod_lia. Qed.

(** Decoding the encoding of a buffer gives the buffer back. *)
Lemma buffer_from_base64_to_base64 (bs : list byte) :
  buffer_from_base64 (to_base64 bs) = bs.
Proof.
  unfold buffer_from_base64.
  induction bs as [ |x|x y|x y z rest IH] using list_ind3.
  - reflexivity.
  - cbn [to_base64].
    rewrite (sextets_std _ _ _ (enc1_std x)), (sextets_std _ _ _ (enc2_std x x00)),
      sextets_padding.
    cbn [pack]. by rewrite pack1_enc.
  - cbn [to_base64].
    rewrite (sextets_std _ _ _ (enc1_std x)), (sextets_std _ _ _ (enc2_std x y)),
      (sextets_std _ _ _ (enc3_std y x00)), sextets_padding.
    cbn [pack]. by rewrite pack1_enc, pack2_enc.
  - cbn [to_base64].
    rewrite (sextets_std _ _ _ (enc1_std x)), (sextets_std _ _ _ (enc2_std x y)),
      (sextets_std _ _ _ (enc3_std y z)), (sextets_std _ _ _ (enc4_std z)).
    cbn [pack]. by rewrite pack1_enc, pack2_enc, pack3_enc, IH.
Qed.

Lemma std_char_of_value (c : ascii) (v : N) :
  std_value c = Some v -> std_char c = true.
Proof. unfold std_char. by intros ->. Qed.

(** What the encoder produces is a canonical base64 string. *)
Lemma is_base64_to_base64 (bs : list byte) : is_base64 (to_base64 bs) = true.
Proof.
  induction bs as [ |x|x y|x y z rest IH] using list_ind3.
  - reflexivity.
  - cbn [to_base64]. rewrite is_base64_quad. simpl Ascii.eqb. cbn iota.
    rewrite (std_char_of_value _ _ (enc1_std x)).
    unfold low_bits_zero. rewrite enc2_std. simpl andb.
    apply N.eqb_eq. change (Byte.to_N x00) with 0%N. change (2 ^ 4)%N with 16%N.
    div_mod_lia.
  - cbn [to_base64]. rewrite is_base64_quad. simpl Ascii.eqb. cbn iota.
    destruct (std_value_facts _ _ (enc3_std y x00)) as (_ & _ & _ & -> & _).
    rewrite (std_char_of_value _ _ (enc1_std x)),
      (std_char_of_value _ _ (enc2_std x y)).
    unfold low_bits_zero. rewrite enc3_std. simpl andb.
    apply N.eqb_eq. change (Byte.to_N x00) with 0%N. change (2 ^ 2)%N with 4%N.
    div_mod_lia.
  - cbn [to_base64]. rewrite is_base64_quad.
    destruct (std_value_facts _ _ (enc4_std z)) as (_ & _ & _ & -> & _).
    by rewrite (std_char_of_value _ _ (enc1_std x)),
      (std_char_of_value _ _ (enc2_std x y)),
      (std_char_of_value _ _ (enc3_std y z)),
      (std_char_of_value _ _ (enc4_std z)), IH.
Qed.

Lemma std_char_not_line_terminator (c : ascii) :
  std_char c = true -> is_line_terminator c = false.
Proof.
  intros H. apply std_char_value in H as [v H].
  by destruct (std_value_facts c v H) as (_ & _ & _ & _ & Hl).
Qed.

Lemma low_bits_zero_std (k : N) (c : ascii) :
  low_bits_zero k c = true -> std_char c = true.
Proof.
  intros H. apply low_bits_zero_value in H as (v & H & _).
  by apply (std_char_of_value c v).
Qed.

(** A canonical base64 string holds no line terminator. *)
Lemma is_base64_dot_star (s : string) :
  is_base64 s = true -> dot_star_to_end s = true.
Proof.
  induction s as [ |a|a b|a b c|a b c d rest IH] using string_ind4;
    try discriminate; [reflexivity|].
  rewrite is_base64_quad. cbn [dot_star_to_end].
  destruct (Ascii.eqb_spec d "=") as [->|Hd].
  - intros H. apply andb_true_iff in H as [H Hlast].
    apply andb_true_iff in H as [Hrest Ha]. apply String.eqb_eq in Hrest as ->.
    rewrite (std_char_not_line_terminator a Ha).
    destruct (Ascii.eqb_spec c "=") as [->|Hc].
    + by rewrite (std_char_not_line_terminator b (low_bits_zero_std 4 b Hlast)).
    + apply andb_true_iff in Hlast as [Hb Hlast].
      by rewrite (std_char_not_line_terminator b Hb),
        (std_char_not_line_terminator c (low_bits_zero_std 2 c Hlast)).
  - intros H. apply andb_true_iff in H as [H Hrest].
    apply andb_true_iff in H as [H Hd'].
    apply andb_true_iff in H as [H Hc].
    apply andb_true_iff in H as [Ha Hb].
    by rewrite (std_char_not_line_terminator a Ha),
      (std_char_not_line_terminator b Hb), (std_char_not_line_terminator c Hc),
      (std_char_not_line_terminator d Hd'), (IH Hrest).
Qed.

(** The fileBase64 pattern on a PDF data string captures all that follows
    the delimiter. *)
Lemma match_base64_pdf_prefix (s : string) :
  dot_star_to_end s = true ->
  match_base64 ("application/pdf;base64," +:+ s) = Some s.
Proof.
  intros H. cbv [String.append]. unfold match_base64, literal_then_rest.
  simpl. by rewrite H.
Qed.

(** C6. For a canonical base64 string [B], the request whose fileBase64 is
    [application/pdf;base64,] followed by [B] hands the driver exactly
    [Buffer.from(B, "base64")], the bytes whose base64 encoding is [B], and
    encoding those bytes again gives [B]. *)
Theorem inline_round_trip (e : env) (b : body) (w : world) (B : string) :
  is_base64 B = true ->
  fileBase64 b = JStr ("application/pdf;base64," +:+ B) ->
  match_base64 ("application/pdf;base64," +:+ B) = Some B /\
  (declared_mode b = Some OS ->
   In (EvWriteFile (tmp_path e) (buffer_from_base64 B)) (events_of e b w)) /\
  (declared_mode b = Some IPP -> present (printerIp b) = true ->
   In (EvIppExecute (ipp_url b) "Print-Job" (ipp_job (buffer_from_base64 B)))
      (events_of e b w)) /\
  to_base64 (buffer_from_base64 B) = B /\
  (forall bs, to_base64 bs = B -> buffer_from_base64 B = bs).
Proof.
  intros HB Hs.
  assert (Hm : match_base64 ("application/pdf;base64," +:+ B) = Some B)
    by (by apply match_base64_pdf_prefix, is_base64_dot_star).
  assert (Hne : "application/pdf;base64," +:+ B <> "").
  { cbv [String.append]. discriminate. }
  split; [exact Hm|]. split; [|split; [|split]].
  - intros Hos.
    rewrite (events_of_app e b w (spool_events e b (buffer_from_base64 B))).
    + unfold spool_events. simpl. auto.
    + by rewrite (post_print_os_inline e b w _ Hs Hne B Hos Hm),
        spool_outcome_trace.
  - intros Hipp Hip.
    destruct (submit_outcome_trace e b (buffer_from_base64 B) w)
      as (rest & Ht & _).
    rewrite (events_of_app e b w
               (EvIppExecute (ipp_url b) "Print-Job"
                  (ipp_job (buffer_from_base64 B)) :: rest)).
    + simpl. auto.
    + by rewrite (post_print_ipp_inline e b w _ Hs Hne B Hipp Hip Hm).
  - by apply to_base64_buffer_from_base64.
  - intros bs <-. apply buffer_from_base64_to_base64.
Qed.

Lemma inline_round_trip_witness :
  is_base64 "JVBERi0x" = true /\
  match_base64 ("application/pdf;base64," +:+ "JVBERi0x") = Some "JVBERi0x" /\
  to_base64 (buffer_from_base64 "JVBERi0x") = "JVBERi0x".
Proof.
  split; [reflexivity|].
  destruct (inline_round_trip env_all_ok job_os_inline empty_world "JVBERi0x")
    as (Hm & _ & _ & Hr & _); [reflexivity | reflexivity |].
  split; [exact Hm | exact Hr].
Defined.

Lemma missing_field_rejected_before_io_witness :
  missing_required_field job_tcp_no_raw = true /\
  exists msg,
    In msg missing_field_messages /\
    post_print env_all_ok job_tcp_no_raw empty_world =
    (Responded (bad_request msg), empty_world).
Proof.
  split; [reflexivity|].
  apply (missing_field_rejected_before_io env_all_ok job_tcp_no_raw empty_world).
  reflexivity.
Defined.

(** ** The raw field *)

Lemma std_char_not_semicolon (a : ascii) :
  std_char a = true -> Ascii.eqb ";" a = false.
Proof.
  intros H. destruct (Ascii.eqb_spec ";" a) as [<-|Hne]; [|reflexivity].
  vm_compute in H. discriminate.
Qed.

Lemma low_bits_zero_std_char (k : N) (c : ascii) :
  low_bits_zero k c = true -> std_char c = true.
Proof.
  unfold low_bits_zero, std_char. by destruct (std_value c).
Qed.

Lemma occurs_skip (a : ascii) (s : string) :
  Ascii.eqb ";" a = false ->
  occurs ";base64," (String a s) = occurs ";base64," s.
Proof. intros H. cbn [occurs strip_literal]. by rewrite H. Qed.

(** A canonical base64 string has no [;base64,] in it. *)
Lemma is_base64_no_delimiter (s : string) :
  is_base64 s = true -> inline_pattern_present s = false.
Proof.
  unfold inline_pattern_present.
  induction s as [ |a|a b|a b c|a b c d rest IH] using string_ind4;
    try discriminate; [reflexivity|].
  rewrite is_base64_quad.
  destruct (Ascii.eqb_spec d "=") as [->|Hd].
  - intros H. apply andb_true_iff in H as [H Hlast].
    apply andb_true_iff in H as [Hrest Ha]. apply String.eqb_eq in Hrest as ->.
    rewrite (occurs_skip a) by by apply std_char_not_semicolon.
    destruct (Ascii.eqb_spec c "=") as [->|Hc].
    + rewrite (occurs_skip b)
        by by eapply std_char_not_semicolon, low_bits_zero_std_char.
      reflexivity.
    + apply andb_true_iff in Hlast as [Hb Hlast].
      rewrite (occurs_skip b) by by apply std_char_not_semicolon.
      rewrite (occurs_skip c)
        by by eapply std_char_not_semicolon, low_bits_zero_std_char.
      reflexivity.
  - intros H. apply andb_true_iff in H as [H Hrest].
    apply andb_true_iff in H as [H Hd']. apply andb_true_iff in H as [H Hc].
    apply andb_true_iff in H as [Ha Hb].
    rewrite !occurs_skip by by apply std_char_not_semicolon.
    by apply IH.
Qed.

Lemma greedy_without_delimiter (s : string) :
  inline_pattern_present s = false -> greedy_then_base64 s = None.
Proof.
  unfold inline_pattern_present. induction s as [|c s IH]; intros H.
  - reflexivity.
  - cbn [occurs] in H.
    destruct (strip_literal ";base64," (String c s)) eqn:Hs; [discriminate|].
    cbn [greedy_then_base64]. unfold literal_then_rest. rewrite Hs, (IH H).
    by destruct (is_line_terminator c).
Qed.

Lemma greedy_then_base64_step (c : ascii) (s : string) :
  is_line_terminator c = false ->
  greedy_then_base64 (String c s) =
  match greedy_then_base64 s with
  | Some body => Some body
  | None => literal_then_rest ";base64," (String c s)
  end.
Proof. intros H. cbn [greedy_then_base64]. by rewrite H. Qed.

(** When the data holds no further [;base64,], the raw pattern captures the
    data, whole. *)
Lemma match_data_url_captures (mime data : string) :
  dot_star_to_end mime = true -> dot_star_to_end data = true ->
  inline_pattern_present data = false ->
  match_data_url ("data:" +:+ mime +:+ ";base64," +:+ data) = Some data.
Proof.
  intros Hm Hd Hno. unfold match_data_url.
  assert (Hs : strip_literal "data:" ("data:" +:+ mime +:+ ";base64," +:+ data) =
               Some (mime +:+ ";base64," +:+ data))
    by by apply strip_literal_spec.
  rewrite Hs. clear Hs.
  induction mime as [|c mime IH].
  - rewrite append_nil_l, !append_cons, append_nil_l.
    assert (Hin : greedy_then_base64
                    (String "b" (String "a" (String "s" (String "e"
                      (String "6" (String "4" (String "," data))))))) = None).
    { apply greedy_without_delimiter. unfold inline_pattern_present in *.
      by rewrite !occurs_skip by reflexivity. }
    rewrite greedy_then_base64_step by reflexivity.
    rewrite Hin. apply literal_then_rest_spec. split; [reflexivity|exact Hd].
  - rewrite append_cons. simpl in Hm.
    apply andb_true_iff in Hm as [Hc Hm]. apply negb_true_iff in Hc.
    by rewrite (greedy_then_base64_step c _ Hc), (IH Hm).
Qed.

(** C5, as the code has it. In tcp mode the raw string is decoded where it
    is written to the socket, and the pattern that selects decoding asks
    for a leading [data:]. The job is never answered with a 400 (no
    encoding error), no fetch is made and no file is written; every write
    on the socket carries [decodeInline r], and that write happens as soon
    as the socket connects. For a data URL, [data:], a media type,
    [;base64,] and canonical base64 data, what is written is the bytes
    that the data encodes; a string that does not start with [data:], the
    specification's [<mime>;base64,<data>] included, is written as it
    is. *)
Theorem raw_field_decoded_in_place (e : env) (b : body) (w : world) (r : string) :
  declared_mode b = Some RAW_SOCKET ->
  present (printerIp b) = true -> raw b = JStr r -> r <> "" ->
  (forall msg, fst (post_print e b w) <> Responded (bad_request msg)) /\
  files (snd (post_print e b w)) = files w /\
  exists new,
    trace (snd (post_print e b w)) = trace w ++ new /\
    Forall (fun ev => is_fetch ev = false /\ is_write_file ev = false) new /\
    (forall c, In (EvSocketWrite c) new ->
       c = match match_data_url r with
           | Some b64 => ChunkBuffer (buffer_from_base64 b64)
           | None => ChunkString r
           end) /\
    (In SockConnect (socket_events e (printerIp b)) ->
     In (EvSocketWrite (decodeInline r)) new) /\
    (forall mime data c,
       r = "data:" +:+ mime +:+ ";base64," +:+ data ->
       dot_star_to_end mime = true -> is_base64 data = true ->
       In (EvSocketWrite c) new ->
       exists bytes, c = ChunkBuffer bytes /\ to_base64 bytes = data) /\
    (forall c,
       strip_literal "data:" r = None -> In (EvSocketWrite c) new ->
       c = ChunkString r).
Proof.
  intros Hm Hip Hraw Hr. unfold present in Hip.
  rewrite (post_print_tcp e b w r Hm Hip Hraw Hr).
  fold (decodeInline r).
  set (evs := socket_events e (printerIp b)).
  assert (Hdata : forall mime data c,
    r = "data:" +:+ mime +:+ ";base64," +:+ data ->
    dot_star_to_end mime = true -> is_base64 data = true ->
    c = decodeInline r ->
    exists bytes, c = ChunkBuffer bytes /\ to_base64 bytes = data).
  { intros mime data c -> Hmime Hdata ->. unfold decodeInline.
    rewrite (match_data_url_captures mime data Hmime
               (is_base64_dot_star data Hdata)
               (is_base64_no_delimiter data Hdata)).
    eexists. split; [reflexivity|]. by apply to_base64_buffer_from_base64. }
  assert (Hplain : forall c,
    strip_literal "data:" r = None -> c = decodeInline r -> c = ChunkString r).
  { intros c Hs ->. unfold decodeInline, match_data_url. by rewrite Hs. }
  assert (Hev : forall tail,
    Forall (fun ev => is_fetch ev = false /\ is_write_file ev = false) tail ->
    (forall c, ~ In (EvSocketWrite c) tail) ->
    Forall (fun ev => is_fetch ev = false /\ is_write_file ev = false)
      (tcp_events (printerIp b) r evs ++ tail) /\
    (forall c, In (EvSocketWrite c) (tcp_events (printerIp b) r evs ++ tail) ->
       c = decodeInline r) /\
    (In SockConnect evs ->
     In (EvSocketWrite (decodeInline r)) (tcp_events (printerIp b) r evs ++ tail))).
  { intros tail Htail Hnw. unfold tcp_events.
    destruct (existsb is_connect evs) eqn:Hc.
    - split; [|split].
      + repeat (constructor; [by split|]). exact Htail.
      + simpl. intros c [H|[H|[H|H]]]; try discriminate.
        * by injection H.
        * by destruct (Hnw c).
      + intros _. simpl. auto.
    - split; [|split].
      + repeat (constructor; [by split|]). exact Htail.
      + simpl. intros c [H|H]; [discriminate|by destruct (Hnw c)].
      + intros Hin. apply existsb_is_connect in Hin. congruence. }
  assert (Hall : forall tail,
    Forall (fun ev => is_fetch ev = false /\ is_write_file ev = false) tail ->
    (forall c, ~ In (EvSocketWrite c) tail) ->
    let new := tcp_events (printerIp b) r evs ++ tail in
    Forall (fun ev => is_fetch ev = false /\ is_write_file ev = false) new /\
    (forall c, In (EvSocketWrite c) new -> c = decodeInline r) /\
    (In SockConnect evs -> In (EvSocketWrite (decodeInline r)) new) /\
    (forall mime data c,
       r = "data:" +:+ mime +:+ ";base64," +:+ data ->
       dot_star_to_end mime = true -> is_base64 data = true ->
       In (EvSocketWrite c) new ->
       exists bytes, c = ChunkBuffer bytes /\ to_base64 bytes = data) /\
    (forall c,
       strip_literal "data:" r = None -> In (EvSocketWrite c) new ->
       c = ChunkString r)).
  { intros tail Htail Hnw new.
    destruct (Hev tail Htail Hnw) as (H1 & H2 & H3).
    split; [exact H1|]. split; [exact H2|]. split; [exact H3|]. split.
    - intros mime data c Hrd Hmime Hd Hin.
      by apply (Hdata mime data c Hrd Hmime Hd), H2.
    - intros c Hs Hin. by apply (Hplain c Hs), H2. }
  destruct (promise_after evs Pending) as [ | |msg]; simpl.
  - split; [discriminate|]. split; [reflexivity|].
    exists (tcp_events (printerIp b) r evs). split; [reflexivity|].
    rewrite <- (app_nil_r (tcp_events _ _ _)). apply Hall; [constructor|].
    intros c [].
  - split; [discriminate|]. split; [reflexivity|].
    exists (tcp_events (printerIp b) r evs). split; [reflexivity|].
    rewrite <- (app_nil_r (tcp_events _ _ _)). apply Hall; [constructor|].
    intros c [].
  - split; [discriminate|]. split; [reflexivity|].
    exists (tcp_events (printerIp b) r evs ++ [EvConsoleError msg]).
    split; [reflexivity|]. apply Hall.
    + constructor; [by split|constructor].
    + intros c [H|[]]. discriminate.
Qed.

Lemma raw_field_decoded_in_place_witness :
  declared_mode job_tcp_data_url = Some RAW_SOCKET /\
  is_base64 "JVBERi0x" = true /\
  exists bytes,
    In (EvSocketWrite (ChunkBuffer bytes))
       (trace (snd (post_print env_all_ok job_tcp_data_url empty_world))) /\
    to_base64 bytes = "JVBERi0x".
Proof.
  split; [reflexivity|]. split; [reflexivity|].
  destruct (raw_field_decoded_in_place env_all_ok job_tcp_data_url empty_world
              "data:application/pdf;base64,JVBERi0x")
    as (_ & _ & new & Htrace & _ & _ & Hsent & Hdata & _);
    [reflexivity | reflexivity | reflexivity | discriminate |].
  destruct (Hdata "application/pdf" "JVBERi0x" (decodeInline
              "data:application/pdf;base64,JVBERi0x"))
    as (bytes & Hc & Hb);
    [reflexivity | reflexivity | reflexivity | |].
  - apply Hsent. simpl. auto.
  - exists bytes. split; [|exact Hb].
    rewrite Htrace, <- Hc. apply in_or_app. right. apply Hsent. simpl. auto.
Defined.

(** C5, as stated, fails: a raw field in the shape of the inline encoding,
    a media type, [;base64,] and the data, is not decoded when it does not
    start with [data:]. The characters of the string are written to the
    socket, not the bytes it encodes, and success is answered. *)
Lemma raw_inline_pattern_sent_undecoded :
  inline_pattern_present "application/pdf;base64,JVBERi0x" = true /\
  is_base64 "JVBERi0x" = true /\
  buffer_from_base64 "JVBERi0x" = sample_pdf /\
  post_print env_all_ok job_tcp_inline empty_world =
  (Responded (sent "tcp" "Raw TCP sent to printer"),
   World ∅ ∅
     [EvSocketConnect 9100 (JStr "10.0.0.5");
      EvSocketWrite (ChunkString "application/pdf;base64,JVBERi0x");
      EvSocketEnd]) /\
  ~ In (EvSocketWrite (ChunkBuffer sample_pdf))
       (trace (snd (post_print env_all_ok job_tcp_inline empty_world))).
Proof.
  repeat split; try reflexivity.
  simpl. intros [H|[H|[H|[]]]]; discriminate H.
Qed.


(** ** The scenarios of the specification *)

Example scenario_os_inline :
  post_print env_all_ok job_os_inline empty_world =
  (Responded (sent "os" "Sent to OS print spooler"),
   World ∅ {["/srv/print/tmp"]}
     [EvMkdir "/srv/print/tmp";
      EvWriteFile "/srv/print/tmp/print-1700000000000.pdf"
        [x25; x50; x44; x46; x2d; x31];
      EvPrint "/srv/print/tmp/print-1700000000000.pdf" None;
      EvUnlink "/srv/print/tmp/print-1700000000000.pdf"]).
Proof. vm_compute. reflexivity. Qed.

Example scenario_tcp_missing_raw :
  post_print env_all_ok job_tcp_no_raw empty_world =
  (Responded (bad_request "raw data required for tcp mode"), empty_world).
Proof. reflexivity. Qed.

Example scenario_tcp_literal_bytes :
  post_print env_all_ok job_tcp_test empty_world =
  (Responded (sent "tcp" "Raw TCP sent to printer"),
   World ∅ ∅
     [EvSocketConnect 9100 (JStr "10.0.0.5");
      EvSocketWrite (ChunkString "TEST"); EvSocketEnd]).
Proof. reflexivity. Qed.

Example scenario_tcp_refused :
  post_print env_spooler_fails job_tcp_test empty_world =
  (Responded (server_error "ECONNREFUSED"),
   World ∅ ∅
     [EvSocketConnect 9100 (JStr "10.0.0.5"); EvConsoleError "ECONNREFUSED"]).
Proof. reflexivity. Qed.

(** Characters outside the alphabet are skipped by the decoder, they are
    not an error; the first padding character ends the input. *)
Example lenient_decoding :
  buffer_from_base64 "JVBE Ri0x" = sample_pdf /\
  buffer_from_base64 "@@@@" = [] /\
  buffer_from_base64 "JVBERi0x=JVBERi0x" = sample_pdf.
Proof. repeat split; reflexivity. Qed.

(** A string that is not in canonical form is decoded all the same, and
    encoding the bytes gives the canonical form, not the string. *)
Example non_canonical_input :
  is_base64 "QQ" = false /\
  buffer_from_base64 "QQ" = ["A"%byte] /\
  to_base64 (buffer_from_base64 "QQ") = "QQ==".
Proof. repeat split; reflexivity. Qed.

Example data_url_patterns :
  match_base64 "data:application/pdf;base64,JVBERi0x" = Some "JVBERi0x" /\
  match_data_url "data:application/pdf;base64,JVBERi0x" = Some "JVBERi0x" /\
  match_data_url "application/pdf;base64,JVBERi0x" = None /\
  match_data_url "TEST" = None.
Proof. repeat split; reflexivity. Qed.

(** * Further properties of the handler and of the server *)

(** ** Every run has one of the listed shapes *)

Lemma os_run_complete (e : env) (b : body) (w : world) :
  declared_mode b = Some OS -> os_run e b w (post_print e b w).
Proof.
  intros Hm. destruct (truthy (fileBase64 b)) eqn:Hb.
  - destruct (fileBase64 b) as [ | |x|z|o|s] eqn:Hfb.
    1-5: unfold post_print, try_catch; rewrite (print_try_os e b Hm);
         rewrite (print_os_inline_not_string e b w);
         [ apply OsTypeError | by rewrite Hfb | rewrite Hfb; congruence ].
    assert (Hne : s <> "") by (intros ->; discriminate).
    destruct (match_base64 s) as [b64|] eqn:Hs.
    + rewrite (post_print_os_inline e b w s Hfb Hne b64 Hm Hs). apply OsInline.
    + rewrite (post_print_os_invalid e b w s Hfb Hne Hm Hs). apply OsInvalid.
  - destruct (truthy (fileUrl b)) eqn:Hu.
    + rewrite (post_print_os_remote e b w Hm Hb Hu).
      destruct (fetch e (fileUrl b)) as [resp|msg|text|].
      * destruct (ok resp).
        -- destruct (buffer resp) as [buf|msg|text|].
           ++ apply OsRemote.
           ++ apply OsDownloadFailed.
           ++ apply OsDownloadFailedValue.
           ++ apply OsDownloadPending.
        -- apply OsDownloadFailed.
      * apply OsDownloadFailed.
      * apply OsDownloadFailedValue.
      * apply OsDownloadPending.
    + unfold post_print, try_catch. rewrite (print_try_os e b Hm).
      unfold print_os. rewrite Hb, Hu. apply OsMissing.
Qed.

Lemma ipp_run_complete (e : env) (b : body) (w : world) :
  declared_mode b = Some IPP -> ipp_run e b w (post_print e b w).
Proof.
  intros Hm. destruct (truthy (printerIp b)) eqn:Hip.
  2: { unfold post_print, try_catch. rewrite (print_try_ipp e b Hm).
       unfold print_ipp. rewrite Hip. apply IppMissingIp. }
  destruct (truthy (fileBase64 b)) eqn:Hb.
  - destruct (fileBase64 b) as [ | |x|z|o|s] eqn:Hfb.
    1-5: unfold post_print, try_catch; rewrite (print_try_ipp e b Hm);
         rewrite (print_ipp_inline_not_string e b w);
         [ apply IppTypeError | by rewrite Hfb | exact Hip
         | rewrite Hfb; congruence ].
    assert (Hne : s <> "") by (intros ->; discriminate).
    destruct (match_base64 s) as [b64|] eqn:Hs.
    + rewrite (post_print_ipp_inline e b w s Hfb Hne b64 Hm Hip Hs).
      apply IppInline.
    + rewrite (post_print_ipp_invalid e b w s Hfb Hne Hm Hip Hs).
      apply IppInvalid.
  - destruct (truthy (fileUrl b)) eqn:Hu.
    + rewrite (post_print_ipp_remote e b w Hm Hip Hb Hu).
      destruct (fetch e (fileUrl b)) as [resp|msg|text|].
      * destruct (ok resp).
        -- destruct (buffer resp) as [buf|msg|text|].
           ++ apply IppRemote.
           ++ apply IppDownloadFailed.
           ++ apply IppDownloadFailedValue.
           ++ apply IppDownloadPending.
        -- apply IppDownloadFailed.
      * apply IppDownloadFailed.
      * apply IppDownloadFailedValue.
      * apply IppDownloadPending.
    + unfold post_print, try_catch. rewrite (print_try_ipp e b Hm).
      unfold print_ipp. rewrite Hip, Hb, Hu. apply IppMissingSource.
Qed.

Lemma on_connect_not_string (v : jsval) (w : world) :
  (forall r, v <> JStr r) ->
  on_connect v w = (Die "raw.match is not a function", w).
Proof. intros H. destruct v; try reflexivity. by destruct (H s). Qed.

Lemma socket_loop_not_string (v : jsval) (evs : list socket_event) :
  (forall r, v <> JStr r) ->
  forall (p : promise) (w : world),
    socket_loop v evs true p w =
    if existsb is_connect evs
    then (Die "raw.match is not a function", w)
    else (Next (promise_after evs p), w).
Proof.
  intros Hv. induction evs as [|[ | |msg] evs IH]; intros p w.
  - reflexivity.
  - cbn [socket_loop existsb is_connect orb]. unfold bind.
    by rewrite on_connect_not_string.
  - cbn [socket_loop promise_after existsb is_connect orb]. apply IH.
  - cbn [socket_loop promise_after existsb is_connect orb]. apply IH.
Qed.

Lemma tcp_run_complete (e : env) (b : body) (w : world) :
  declared_mode b = Some RAW_SOCKET -> tcp_run e b w (post_print e b w).
Proof.
  intros Hm. destruct (truthy (printerIp b)) eqn:Hip.
  2: { unfold post_print, try_catch. rewrite (print_try_tcp e b Hm).
       unfold print_tcp. rewrite Hip. apply TcpMissingIp. }
  destruct (truthy (raw b)) eqn:Hraw.
  2: { unfold post_print, try_catch. rewrite (print_try_tcp e b Hm).
       unfold print_tcp. rewrite Hip, Hraw. apply TcpMissingRaw. }
  assert (Hstr : (exists r, raw b = JStr r /\ r <> "") \/ forall r, raw b <> JStr r).
  { destruct (raw b) as [ | |x|z|o|s]; try (right; congruence).
    left. exists s. split; [reflexivity|]. intros ->. discriminate. }
  destruct Hstr as [(r & Hr & Hne)|Hns].
  - rewrite (post_print_tcp e b w r Hm Hip Hr Hne).
    pose proof (TcpString e b w r Hr) as H. unfold promise_outcome in H.
    destruct (promise_after (socket_events e (printerIp b)) Pending);
      try exact H.
    by rewrite logged_logged in H.
  - unfold post_print, try_catch. rewrite (print_try_tcp e b Hm).
    unfold print_tcp. rewrite Hip, Hraw. simpl.
    unfold send_raw, bind at 1 2 3, emit at 1.
    rewrite (socket_loop_not_string _ _ Hns).
    fold (logged w [EvSocketConnect 9100 (printerIp b)]).
    destruct (existsb is_connect (socket_events e (printerIp b))) eqn:Hc.
    + apply TcpCrash; try assumption. by apply existsb_is_connect.
    + assert (Hnc : ~ In SockConnect (socket_events e (printerIp b))).
      { intros Hin. apply existsb_is_connect in Hin. congruence. }
      pose proof (TcpNoConnect e b w Hns Hnc) as H. unfold promise_outcome in H.
      destruct (promise_after (socket_events e (printerIp b)) Pending);
        exact H.
Qed.

(** ** Modes *)

Lemma declared_mode_None (e : env) (b : body) (w : world) :
  declared_mode b = None ->
  post_print e b w = (Responded (bad_request "Unsupported mode"), w).
Proof.
  unfold declared_mode, post_print, try_catch, print_try.
  destruct (strict_eq_str _ "os"); [discriminate|].
  destruct (strict_eq_str _ "tcp"); [discriminate|].
  destruct (strict_eq_str _ "ipp"); [discriminate|reflexivity].
Qed.

Lemma strict_eq_str_false (v : jsval) (lit : string) :
  v <> JStr lit -> strict_eq_str v lit = false.
Proof.
  intros H. destruct v; try reflexivity. simpl.
  apply String.eqb_neq. congruence.
Qed.

(** A mode that is given and is none of ["os"], ["tcp"], ["ipp"] (another
    string, another spelling, [null], a number) is answered with status 400
    and "Unsupported mode"; nothing else happens. *)
Theorem unsupported_mode_rejected (e : env) (b : body) (w : world) :
  mode b <> JUndefined ->
  mode b <> JStr "os" -> mode b <> JStr "tcp" -> mode b <> JStr "ipp" ->
  post_print e b w = (Responded (bad_request "Unsupported mode"), w).
Proof.
  intros Hu Hos Htcp Hipp. apply declared_mode_None. unfold declared_mode.
  assert (Hd : with_default (mode b) (JStr "os") = mode b)
    by (clear Hos Htcp Hipp; revert Hu; destruct (mode b); simpl; congruence).
  rewrite Hd.
  by rewrite (strict_eq_str_false _ _ Hos), (strict_eq_str_false _ _ Htcp),
    (strict_eq_str_false _ _ Hipp).
Qed.

Lemma unsupported_mode_rejected_witness :
  mode job_unknown_mode <> JStr "os" /\
  post_print env_all_ok job_unknown_mode empty_world =
  (Responded (bad_request "Unsupported mode"), empty_world).
Proof.
  split; [discriminate|].
  apply (unsupported_mode_rejected env_all_ok job_unknown_mode empty_world);
    discriminate.
Defined.

(** A body without [mode] is handled exactly as the same body with mode
    ["os"]. *)
Theorem default_mode_is_os (e : env) (b : body) (w : world) :
  mode b = JUndefined ->
  post_print e b w = post_print e (with_mode (JStr "os") b) w.
Proof.
  intros H. unfold post_print.
  assert (Hm : declared_mode b = Some OS)
    by (unfold declared_mode; by rewrite H).
  rewrite (print_try_os e b Hm).
  by rewrite (print_try_os e (with_mode (JStr "os") b) eq_refl).
Qed.

Lemma default_mode_is_os_witness :
  mode job_os_inline = JUndefined /\
  post_print env_all_ok job_os_inline empty_world =
  post_print env_all_ok (with_mode (JStr "os") job_os_inline) empty_world.
Proof.
  split; [reflexivity|].
  by apply (default_mode_is_os env_all_ok job_os_inline empty_world).
Defined.

(** ** Status codes *)

(** The answers a run can end in, by the declared mode. *)
Lemma post_print_run (e : env) (b : body) (w : world) :
  match declared_mode b with
  | Some OS => os_run e b w (post_print e b w)
  | Some RAW_SOCKET => tcp_run e b w (post_print e b w)
  | Some IPP => ipp_run e b w (post_print e b w)
  | None => post_print e b w = (Responded (bad_request "Unsupported mode"), w)
  end.
Proof.
  destruct (declared_mode b) as [[ | | ]|] eqn:Hm.
  - by apply os_run_complete.
  - by apply tcp_run_complete.
  - by apply ipp_run_complete.
  - by apply declared_mode_None.
Qed.

(** A response with status 400 is sent before anything is done: whatever
    the mode and the fields, the files, the directories and the trace are
    as they were. *)
Theorem bad_request_has_no_effect (e : env) (b : body) (w : world) (r : Res.t) :
  fst (post_print e b w) = Responded r -> Res.status r = 400%Z ->
  snd (post_print e b w) = w.
Proof.
  pose proof (post_print_run e b w) as Hrun.
  destruct (declared_mode b) as [[ | | ]|]; [| | |by rewrite Hrun];
    destruct Hrun; try reflexivity; unfold_answers; case_oracles; simpl;
    intros Hfst Hst; try discriminate Hfst; injection Hfst as <-;
    discriminate Hst.
Qed.

Lemma bad_request_has_no_effect_witness :
  Res.status (bad_request "Unsupported mode") = 400%Z /\
  snd (post_print env_all_ok job_unknown_mode
         (World ∅ ∅ [EvConsoleError "earlier"])) =
  World ∅ ∅ [EvConsoleError "earlier"].
Proof.
  split; [reflexivity|].
  apply (bad_request_has_no_effect env_all_ok job_unknown_mode
           (World ∅ ∅ [EvConsoleError "earlier"])
           (bad_request "Unsupported mode"));
    reflexivity.
Defined.




(** pdf-to-printer rejects with a string: the answer has status 500 and no
    error field, the string is written to the console, and the temporary
    file stays. *)
Example spooler_rejects_with_string :
  post_print env_spooler_throws_string job_os_inline empty_world =
  (Responded server_error_without_message,
   World {["/srv/print/tmp/print-1700000000000.pdf" := sample_pdf]}
         {["/srv/print/tmp"]}
     [EvMkdir "/srv/print/tmp";
      EvWriteFile "/srv/print/tmp/print-1700000000000.pdf" sample_pdf;
      EvPrint "/srv/print/tmp/print-1700000000000.pdf" None;
      EvConsoleError "No such file"]).
Proof. vm_compute. reflexivity. Qed.

(** A success response is sent only after the driver of the declared mode
    has completed: the spooler call was made and fulfilled, the socket
    closed before reporting an error, or the IPP exchange was made and
    answered without error. *)
Theorem success_means_driver_completed (e : env) (b : body) (w : world)
    (r : Res.t) :
  fst (post_print e b w) = Responded r -> Res.success r = true ->
  match declared_mode b with
  | Some OS =>
      r = sent "os" "Sent to OS print spooler" /\
      pdf_print e (tmp_path e) (printer_option b) = Fulfilled tt /\
      In (EvPrint (tmp_path e) (printer_option b)) (events_of e b w)
  | Some RAW_SOCKET =>
      r = sent "tcp" "Raw TCP sent to printer" /\
      closed_first (socket_events e (printerIp b)) /\
      In (EvSocketConnect 9100 (printerIp b)) (events_of e b w)
  | Some IPP =>
      r = sent "ipp" "IPP job sent" /\
      exists buf,
        ipp_execute e (ipp_url b) "Print-Job" (ipp_job buf) = Fulfilled tt /\
        In (EvIppExecute (ipp_url b) "Print-Job" (ipp_job buf)) (events_of e b w)
  | None => False
  end.
Proof.
  pose proof (post_print_run e b w) as Hrun. unfold events_of.
  destruct (declared_mode b) as [[ | | ]|].
  - destruct Hrun; unfold_answers; case_oracles; simpl;
      intros Hfst Hst; try discriminate Hfst; injection Hfst as <-;
      try discriminate Hst;
      (split; [reflexivity|]);
      (split;
       [ match goal with
         | H : pdf_print _ _ _ = Fulfilled ?a |- _ => by destruct a
         end
       | norm_events; auto ]).
  - destruct Hrun; unfold_answers; case_oracles; simpl;
      intros Hfst Hst; try discriminate Hfst; injection Hfst as <-;
      try discriminate Hst;
      (split; [reflexivity|]);
      (split; [by apply promise_after_resolved | norm_events; auto]).
  - destruct Hrun; unfold_answers; case_oracles; simpl;
      intros Hfst Hst; try discriminate Hfst; injection Hfst as <-;
      try discriminate Hst;
      (split; [reflexivity|]); eexists;
      (split;
       [ match goal with
         | H : ipp_execute _ _ _ _ = Fulfilled ?a |- _ => by destruct a
         end
       | norm_events; auto ]).
  - rewrite Hrun. simpl. intros Hfst Hst. injection Hfst as <-.
    discriminate Hst.
Qed.

Lemma success_means_driver_completed_witness :
  Res.success (sent "tcp" "Raw TCP sent to printer") = true /\
  closed_first [SockConnect; SockClose].
Proof.
  split; [reflexivity|].
  apply (success_means_driver_completed env_all_ok job_tcp_test empty_world
           (sent "tcp" "Raw TCP sent to printer"));
    reflexivity.
Defined.

(** ** Files *)

(** Whatever the request, the only file it can create, replace or remove is
    the temporary file named after its clock reading: every other path
    holds what it held before. *)
Theorem files_outside_tmp_path_untouched (e : env) (b : body) (w : world)
    (p : string) :
  p <> tmp_path e ->
  files (snd (post_print e b w)) !! p = files w !! p.
Proof.
  intros Hp. pose proof (post_print_run e b w) as Hrun.
  destruct (declared_mode b) as [[ | | ]|]; [| | |by rewrite Hrun];
    destruct Hrun; unfold_answers; case_oracles; try reflexivity;
    unfold cleaned, spooled, logged; simpl;
    try destruct (unlink_ok e (tmp_path e));
    rewrite ?lookup_delete_ne by congruence;
    by rewrite ?lookup_insert_ne by congruence.
Qed.

Lemma files_outside_tmp_path_untouched_witness :
  "/srv/print/index.js" <> tmp_path env_spooler_fails /\
  files (snd (post_print env_spooler_fails job_os_inline world_with_file))
    !! "/srv/print/index.js" =
  files world_with_file !! "/srv/print/index.js".
Proof.
  assert (H : "/srv/print/index.js" <> tmp_path env_spooler_fails)
    by (vm_compute; discriminate).
  split; [exact H|].
  apply (files_outside_tmp_path_untouched env_spooler_fails job_os_inline
           world_with_file "/srv/print/index.js" H).
Defined.

(** After an os request that is answered with success, removing the
    temporary file was the last thing attempted. When the removal works the
    file is gone and the directory holds what it held before, less whatever
    was at that path; when it fails the failure is swallowed, success is
    answered all the same, and the file stays with the bytes that were
    written for the spooler. *)
Theorem os_success_attempts_cleanup (e : env) (b : body) (w : world)
    (r : Res.t) :
  declared_mode b = Some OS ->
  fst (post_print e b w) = Responded r -> Res.success r = true ->
  (exists pre,
     trace (snd (post_print e b w)) = pre ++ [EvUnlink (tmp_path e)]) /\
  if unlink_ok e (tmp_path e)
  then files (snd (post_print e b w)) = delete (tmp_path e) (files w)
  else exists buf,
         In (EvWriteFile (tmp_path e) buf) (events_of e b w) /\
         files (snd (post_print e b w)) = <[tmp_path e := buf]> (files w).
Proof.
  intros Hm. pose proof (os_run_complete e b w Hm) as Hrun. unfold events_of.
  destruct Hrun; unfold_answers; case_oracles; simpl;
    intros Hfst Hst; try discriminate Hfst; injection Hfst as <-;
    try discriminate Hst;
    (split; [eexists; reflexivity|]);
    destruct (unlink_ok e (tmp_path e));
    first [ apply delete_insert_eq
          | eexists; split; [norm_events; auto|reflexivity] ].
Qed.

Lemma os_success_attempts_cleanup_witness :
  Res.success (sent "os" "Sent to OS print spooler") = true /\
  (exists pre,
     trace (snd (post_print env_unlink_fails job_os_inline empty_world)) =
     pre ++ [EvUnlink (tmp_path env_unlink_fails)]) /\
  exists buf,
    In (EvWriteFile (tmp_path env_unlink_fails) buf)
       (events_of env_unlink_fails job_os_inline empty_world) /\
    files (snd (post_print env_unlink_fails job_os_inline empty_world)) =
    <[tmp_path env_unlink_fails := buf]> (files empty_world).
Proof.
  split; [reflexivity|].
  apply (os_success_attempts_cleanup env_unlink_fails job_os_inline
           empty_world (sent "os" "Sent to OS print spooler"));
    reflexivity.
Defined.

(** With a file system that refuses the removal, an os request is answered
    with success and its temporary file is still there. *)
Example temp_file_left_when_unlink_fails :
  post_print env_unlink_fails job_os_inline empty_world =
  (Responded (sent "os" "Sent to OS print spooler"),
   World {["/srv/print/tmp/print-1700000000000.pdf" := sample_pdf]}
         {["/srv/print/tmp"]}
     [EvMkdir "/srv/print/tmp";
      EvWriteFile "/srv/print/tmp/print-1700000000000.pdf" sample_pdf;
      EvPrint "/srv/print/tmp/print-1700000000000.pdf" None;
      EvUnlink "/srv/print/tmp/print-1700000000000.pdf"]).
Proof. vm_compute. reflexivity. Qed.

(** ** One transport per request *)

(** A request produces only the effects of its declared mode: an os request
    never opens a socket or runs an IPP exchange, a tcp request never
    fetches, spools or writes a file, an ipp request never touches a file or
    a socket, and an unsupported mode produces no effect. At most one call
    into a driver is made. *)
Theorem one_transport_per_request (e : env) (b : body) (w : world) :
  match declared_mode b with
  | Some OS => Forall (fun ev => os_event ev = true) (events_of e b w)
  | Some RAW_SOCKET =>
      Forall (fun ev => tcp_event ev = true) (events_of e b w) /\
      files (snd (post_print e b w)) = files w
  | Some IPP =>
      Forall (fun ev => ipp_event ev = true) (events_of e b w) /\
      files (snd (post_print e b w)) = files w
  | None => events_of e b w = []
  end /\
  (length (List.filter is_driver_call (events_of e b w)) <= 1)%nat.
Proof.
  pose proof (post_print_run e b w) as Hrun. unfold events_of.
  destruct (declared_mode b) as [[ | | ]|].
  - destruct Hrun; unfold_answers; case_oracles; norm_events;
      rewrite ?drop_all; (split; [repeat constructor|simpl; lia]).
  - destruct Hrun; unfold_answers; case_oracles; norm_events;
      rewrite ?drop_all;
      (split; [split; [repeat constructor|reflexivity]|simpl; lia]).
  - destruct Hrun; unfold_answers; case_oracles; norm_events;
      rewrite ?drop_all;
      (split; [split; [repeat constructor|reflexivity]|simpl; lia]).
  - rewrite Hrun. simpl. rewrite drop_all. split; [reflexivity|simpl; lia].
Qed.

(** ** The IPP exchange *)

(** Every IPP exchange an ipp request makes is a Print-Job sent to port 631
    of printerIp at the path /ipp/print, in the name of "nodejs", with the
    job name "node-ipp-job" and the document format "application/pdf"; and
    the answer to the request is decided by the result of that exchange:
    success when it completes without error, status 500 with the error's
    message when it fails with an error, status 500 without an error field
    when it fails with a value that has no message, no answer while it is
    pending. *)
Theorem ipp_exchange_shape (e : env) (b : body) (w : world)
    (url op : string) (msg : ipp_message) :
  declared_mode b = Some IPP ->
  In (EvIppExecute url op msg) (events_of e b w) ->
  url = "http://" +:+ to_string (printerIp b) +:+ ":631/ipp/print" /\
  op = "Print-Job" /\
  requesting_user_name msg = "nodejs" /\
  job_name msg = "node-ipp-job" /\
  document_format msg = "application/pdf" /\
  fst (post_print e b w) =
    match ipp_execute e url op msg with
    | Fulfilled _ => Responded (sent "ipp" "IPP job sent")
    | Rejected err => Responded (server_error err)
    | RejectedValue _ => Responded server_error_without_message
    | Forever => NoResponse
    end.
Proof.
  intros Hm. pose proof (ipp_run_complete e b w Hm) as Hrun. unfold events_of.
  destruct Hrun; unfold_answers; case_oracles; norm_events;
    rewrite ?drop_all; simpl; intros Hin;
    repeat (destruct Hin as [Hin|Hin]; [try discriminate Hin|]);
    try contradiction;
    injection Hin as <- <- <-;
    repeat split; try reflexivity; congruence.
Qed.

Lemma ipp_exchange_shape_witness :
  declared_mode job_ipp_inline = Some IPP /\
  "http://10.0.0.9:631/ipp/print" =
  "http://" +:+ to_string (printerIp job_ipp_inline) +:+ ":631/ipp/print".
Proof.
  split; [reflexivity|].
  apply (ipp_exchange_shape env_all_ok job_ipp_inline empty_world
           "http://10.0.0.9:631/ipp/print" "Print-Job" (ipp_job sample_pdf));
    [reflexivity | vm_compute; auto].
Defined.

(** ** Fields of the wrong type *)

(** A fileBase64 that is present but is not a string (a number, [true], an
    object) is not reported as a bad request: calling [match] on it throws,
    and the answer is status 500 with the message of that [TypeError]; no
    fetch is made even when fileUrl is given, and nothing is written. *)
Theorem non_string_fileBase64_is_server_error (e : env) (b : body) (w : world) :
  declared_mode b = Some OS \/
  (declared_mode b = Some IPP /\ truthy (printerIp b) = true) ->
  truthy (fileBase64 b) = true -> (forall s, fileBase64 b <> JStr s) ->
  post_print e b w =
  (Responded (server_error "fileBase64.match is not a function"),
   World (files w) (dirs w)
         (trace w ++ [EvConsoleError "fileBase64.match is not a function"])).
Proof.
  intros [Hm|[Hm Hip]] Ht Hns; unfold post_print, try_catch.
  - by rewrite (print_try_os e b Hm), (print_os_inline_not_string e b w Ht Hns).
  - by rewrite (print_try_ipp e b Hm),
      (print_ipp_inline_not_string e b w Ht Hip Hns).
Qed.

Lemma non_string_fileBase64_is_server_error_witness :
  truthy (fileBase64 job_os_number) = true /\
  post_print env_all_ok job_os_number empty_world =
  (Responded (server_error "fileBase64.match is not a function"),
   World ∅ ∅ ([] ++ [EvConsoleError "fileBase64.match is not a function"])).
Proof.
  split; [reflexivity|].
  apply (non_string_fileBase64_is_server_error env_all_ok job_os_number
           empty_world);
    [left; reflexivity | reflexivity | discriminate].
Defined.

(** The [catch] block does not cover the connect callback of the tcp
    branch. An exception escapes the handler exactly in tcp mode, with
    printerIp present and a raw that is present but is not a string, once
    the socket has connected: [raw.match] throws inside the callback. No
    other request, whatever its fields and whatever the drivers answer,
    ends in an uncaught exception. *)
Theorem uncaught_only_from_connect_callback (e : env) (b : body) (w : world)
    (msg : string) :
  fst (post_print e b w) = Uncaught msg ->
  declared_mode b = Some RAW_SOCKET /\
  truthy (printerIp b) = true /\ truthy (raw b) = true /\
  (forall r, raw b <> JStr r) /\
  In SockConnect (socket_events e (printerIp b)) /\
  msg = "raw.match is not a function" /\
  forall c, ~ In (EvSocketWrite c) (events_of e b w).
Proof.
  pose proof (post_print_run e b w) as Hrun. unfold events_of.
  destruct (declared_mode b) as [[ | | ]|]; [| | |by rewrite Hrun];
    destruct Hrun; unfold_answers; case_oracles; simpl;
    intros Hfst; try discriminate Hfst.
  injection Hfst as <-. repeat (split; [done|]).
  norm_events. intros c [Hc|[]]. discriminate.
Qed.

Lemma uncaught_only_from_connect_callback_witness :
  fst (post_print env_all_ok job_tcp_number empty_world) =
    Uncaught "raw.match is not a function" /\
  In SockConnect (socket_events env_all_ok (printerIp job_tcp_number)).
Proof.
  assert (H : fst (post_print env_all_ok job_tcp_number empty_world) =
              Uncaught "raw.match is not a function") by reflexivity.
  split; [exact H|].
  apply (uncaught_only_from_connect_callback env_all_ok job_tcp_number
           empty_world "raw.match is not a function" H).
Defined.

(** In tcp mode with printerIp present, a raw that is present but is not a
    string makes the connect callback throw as soon as the socket connects:
    the request ends in an uncaught exception and nothing was written to
    the socket. *)
Theorem non_string_raw_throws_on_connect (e : env) (b : body) (w : world)
    (rest : list socket_event) :
  declared_mode b = Some RAW_SOCKET ->
  truthy (printerIp b) = true -> truthy (raw b) = true ->
  (forall r, raw b <> JStr r) ->
  socket_events e (printerIp b) = SockConnect :: rest ->
  post_print e b w =
  (Uncaught "raw.match is not a function",
   World (files w) (dirs w) (trace w ++ [EvSocketConnect 9100 (printerIp b)])).
Proof.
  intros Hm Hip Hraw Hns Hev. unfold post_print, try_catch.
  rewrite (print_try_tcp e b Hm). unfold print_tcp. rewrite Hip, Hraw. simpl.
  unfold send_raw, bind at 1 2 3, emit at 1.
  rewrite (socket_loop_not_string _ _ Hns), Hev. reflexivity.
Qed.

Lemma non_string_raw_throws_on_connect_witness :
  truthy (raw job_tcp_number) = true /\
  post_print env_all_ok job_tcp_number empty_world =
  (Uncaught "raw.match is not a function",
   World ∅ ∅ ([] ++ [EvSocketConnect 9100 (JStr "10.0.0.5")])).
Proof.
  split; [reflexivity|].
  apply (non_string_raw_throws_on_connect env_all_ok job_tcp_number empty_world
           [SockClose]);
    [reflexivity | reflexivity | reflexivity | discriminate | reflexivity].
Defined.

(** ** What the two patterns accept *)






Lemma strip_literal_through (lit s t r : string) (c : ascii) :
  dot_star_to_end lit = true -> is_line_terminator c = true ->
  strip_literal lit (s +:+ String c t) = Some r ->
  exists s', r = s' +:+ String c t.
Proof.
  revert s. induction lit as [|a lit IH]; intros s Hlit Hc; simpl.
  - intros H. injection H as <-. by exists s.
  - simpl in Hlit. apply andb_true_iff in Hlit as [Ha Hlit].
    apply negb_true_iff in Ha.
    destruct s as [|x s].
    + rewrite append_nil_l. destruct (Ascii.eqb_spec a c) as [->|_];
        [congruence|discriminate].
    + rewrite append_cons. destruct (Ascii.eqb a x); [|discriminate].
      by apply IH.
Qed.

Lemma dot_star_through (s t : string) (c : ascii) :
  is_line_terminator c = true -> dot_star_to_end (s +:+ String c t) = false.
Proof.
  intros Hc. induction s as [|a s IH].
  - rewrite append_nil_l. simpl. by rewrite Hc.
  - rewrite append_cons. simpl. by rewrite IH, andb_false_r.
Qed.

Lemma occurs_false_no_match (t : string) :
  occurs "base64," t = false -> match_base64 t = None.
Proof.
  induction t as [|c t IH]; intros H.
  - reflexivity.
  - cbn [occurs] in H. cbn [match_base64]. unfold literal_then_rest.
    destruct (strip_literal "base64," (String c t)); [discriminate|].
    by apply IH.
Qed.

(** A line terminator after which [base64,] does not occur again defeats
    the fileBase64 pattern. *)
Lemma match_base64_line_terminator (s t : string) (c : ascii) :
  is_line_terminator c = true -> occurs "base64," t = false ->
  match_base64 (s +:+ String c t) = None.
Proof.
  intros Hc Ht.
  assert (Hhead : forall s0,
            literal_then_rest "base64," (s0 +:+ String c t) = None).
  { intros s0. unfold literal_then_rest.
    destruct (strip_literal "base64," (s0 +:+ String c t)) as [r|] eqn:Hs;
      [|reflexivity].
    destruct (strip_literal_through "base64," s0 t r c eq_refl Hc Hs)
      as (s' & ->).
    by rewrite dot_star_through. }
  induction s as [|a s IH].
  - rewrite append_nil_l. cbn [match_base64].
    rewrite <- (append_nil_l (String c t)) at 1. rewrite Hhead.
    by apply occurs_false_no_match.
  - rewrite append_cons. cbn [match_base64].
    rewrite <- append_cons, Hhead. exact IH.
Qed.

(** A fileBase64 whose data is wrapped over several lines, or that ends
    with a line break, is refused: when a line terminator comes after the
    last [base64,], the os branch and the ipp branch answer 400 with an
    "Invalid fileBase64" message and do nothing else. *)
Theorem line_terminator_rejects_inline (e : env) (b : body) (w : world)
    (s t : string) (c : ascii) :
  declared_mode b = Some OS \/
  (declared_mode b = Some IPP /\ truthy (printerIp b) = true) ->
  fileBase64 b = JStr (s +:+ String c t) ->
  is_line_terminator c = true -> occurs "base64," t = false ->
  exists msg,
    In msg invalid_encoding_messages /\
    post_print e b w = (Responded (bad_request msg), w).
Proof.
  intros Hmode Hb Hc Ht.
  assert (Hne : s +:+ String c t <> "").
  { destruct s; [rewrite append_nil_l|rewrite append_cons]; discriminate. }
  pose proof (match_base64_line_terminator s t c Hc Ht) as Hm.
  destruct Hmode as [Hos|[Hipp Hip]].
  - rewrite (post_print_os_invalid e b w _ Hb Hne Hos Hm).
    eexists. split; [|reflexivity]. simpl. auto.
  - rewrite (post_print_ipp_invalid e b w _ Hb Hne Hipp Hip Hm).
    eexists. split; [|reflexivity]. simpl. auto.
Qed.

Lemma line_terminator_rejects_inline_witness :
  is_line_terminator "010" = true /\
  exists msg,
    In msg invalid_encoding_messages /\
    post_print env_all_ok job_os_wrapped empty_world =
    (Responded (bad_request msg), empty_world).
Proof.
  split; [reflexivity|].
  apply (line_terminator_rejects_inline env_all_ok job_os_wrapped empty_world
           "data:application/pdf;base64,JVBE" "Ri0x" "010");
    [left; reflexivity | reflexivity | reflexivity | reflexivity].
Defined.

(** ** The shape of a response *)



(** ** The key check and the routes *)

Lemma api_key_string (pe : Server.process_env) :
  exists k, Server.API_KEY pe = JStr k /\ k <> "".
Proof.
  unfold Server.API_KEY, Server.js_or, Server.env_value.
  destruct (Server.PRINT_API_KEY pe) as [k|]; simpl.
  - destruct (String.eqb_spec k "") as [->|Hk]; simpl.
    + by exists "1234".
    + by exists k.
  - by exists "1234".
Qed.

Lemma strict_eq_string (v : jsval) (k : string) :
  Server.strict_eq v (JStr k) = true <-> v = JStr k.
Proof.
  destruct v; simpl; try (split; [discriminate|congruence]).
  rewrite String.eqb_eq. split; congruence.
Qed.

Lemma key_accepted_iff (pe : Server.process_env) (rq : Server.request) :
  Server.key_accepted pe rq = true <-> Server.presents_key pe rq.
Proof.
  destruct (api_key_string pe) as (k & Hk & Hne).
  unfold Server.key_accepted, Server.presents_key, Server.js_or. rewrite Hk.
  destruct (truthy (Server.x_api_key rq)) eqn:Hh.
  - rewrite Hh. simpl.
    destruct (Server.strict_eq (Server.x_api_key rq) (JStr k)) eqn:He; simpl.
    + apply strict_eq_string in He. split; auto.
    + split; [discriminate|]. intros [H|[H _]]; [|discriminate].
      apply strict_eq_string in H. congruence.
  - destruct (truthy (Server.query_api_key rq)) eqn:Hq; simpl.
    + destruct (Server.strict_eq (Server.query_api_key rq) (JStr k)) eqn:He;
        simpl.
      * apply strict_eq_string in He. split; auto.
      * split; [discriminate|]. intros [H|[_ H]].
        -- rewrite H in Hh. rewrite (truthy_string k Hne) in Hh. discriminate.
        -- apply strict_eq_string in H. congruence.
    + split; [discriminate|]. intros [H|[_ H]].
      * rewrite H in Hh. rewrite (truthy_string k Hne) in Hh. discriminate.
      * rewrite H in Hq. rewrite (truthy_string k Hne) in Hq. discriminate.
Qed.

(** The key check lets a request through to its route exactly when the
    request presents the key, in the [x-api-key] header or, when that
    header is absent or empty, in the [api_key] query parameter. Any other
    request, a wrong header even with the right query parameter, is
    answered 401 "Unauthorized" and no route runs: nothing is printed,
    fetched or written. *)
Theorem key_check_decides (sv : Server.services) (rq : Server.request)
    (w : world) :
  (Server.presents_key (Server.penv sv) rq ->
   Server.app sv rq w = Server.routes sv rq w) /\
  (~ Server.presents_key (Server.penv sv) rq ->
   Server.app sv rq w = (Server.Replied Server.unauthorized, w)).
Proof.
  unfold Server.app.
  destruct (Server.key_accepted (Server.penv sv) rq) eqn:Hk.
  - apply key_accepted_iff in Hk. split; [reflexivity|]. by intros [].
  - split; [|reflexivity]. intros Hp. apply key_accepted_iff in Hp. congruence.
Qed.

Lemma key_check_decides_witness :
  Server.query_api_key request_wrong_header =
    Server.API_KEY (Server.penv services_default_key) /\
  Server.app services_default_key request_wrong_header empty_world =
  (Server.Replied Server.unauthorized, empty_world).
Proof.
  split; [reflexivity|].
  apply (key_check_decides services_default_key request_wrong_header empty_world).
  intros [H|[H _]]; discriminate H.
Defined.

(** A request that carries no key, the header and the query parameter both
    absent or empty, is never let through, whatever PRINT_API_KEY is set
    to: the key falls back to "1234" when the variable is empty, so it is
    never the empty string. *)
Theorem missing_key_never_accepted (sv : Server.services) (rq : Server.request)
    (w : world) :
  truthy (Server.x_api_key rq) = false ->
  truthy (Server.query_api_key rq) = false ->
  Server.app sv rq w = (Server.Replied Server.unauthorized, w).
Proof.
  intros Hh Hq. unfold Server.app.
  destruct (Server.key_accepted (Server.penv sv) rq) eqn:Hk; [|reflexivity].
  apply key_accepted_iff in Hk.
  destruct (api_key_string (Server.penv sv)) as (k & Hkey & Hne).
  destruct Hk as [H|[_ H]]; rewrite Hkey in H.
  - rewrite H, (truthy_string k Hne) in Hh. discriminate.
  - rewrite H, (truthy_string k Hne) in Hq. discriminate.
Qed.

Lemma missing_key_never_accepted_witness :
  truthy (Server.x_api_key request_no_key) = false /\
  Server.app services_empty_key request_no_key empty_world =
  (Server.Replied Server.unauthorized, empty_world).
Proof.
  split; [reflexivity|].
  apply (missing_key_never_accepted services_empty_key request_no_key
           empty_world);
    reflexivity.
Defined.

(** Only POST /print has effects: a request to any other route, with or
    without the key, whatever the printer list answers, leaves the files,
    the directories and the trace as they were. *)
Theorem only_print_route_has_effects (sv : Server.services)
    (rq : Server.request) (w : world) :
  Server.route_of rq <> Server.PostPrint ->
  snd (Server.app sv rq w) = w.
Proof.
  intros Hr. unfold Server.app, Server.routes.
  destruct (Server.key_accepted (Server.penv sv) rq); [|reflexivity].
  destruct (Server.route_of rq); try reflexivity. by destruct Hr.
Qed.

Lemma only_print_route_has_effects_witness :
  Server.route_of request_no_key <> Server.PostPrint /\
  snd (Server.app services_default_key request_no_key world_with_file) =
  world_with_file.
Proof.
  split; [discriminate|].
  apply (only_print_route_has_effects services_default_key request_no_key
           world_with_file).
  discriminate.
Defined.

(** A print request that presents the key in the query string is handled
    by POST /print: the answer and the effects are those of the handler. *)
Example print_with_query_key :
  Server.app services_default_key request_query_key empty_world =
  (Server.Replied (Server.of_res (sent "os" "Sent to OS print spooler")),
   snd (post_print env_all_ok job_os_inline empty_world)).
Proof. vm_compute. reflexivity. Qed.

(** ** The spooler call *)

(** The spooler is called with the temporary file of the request, right
    after that file was written, and with the printer the request names:
    [options.printer] is printerName when it is present and is left out
    when printerName is absent or empty (the default printer). Before the
    file is written the request has done nothing, or one fetch of
    fileUrl. Afterwards the file holds the bytes written for the spooler,
    unless its removal was attempted and worked. *)
Theorem spooler_called_on_written_file (e : env) (b : body) (w : world)
    (p : string) (o : option jsval) :
  declared_mode b = Some OS ->
  In (EvPrint p o) (events_of e b w) ->
  p = tmp_path e /\
  o = (if truthy (printerName b) then Some (printerName b) else None) /\
  exists pre buf post,
    events_of e b w =
    pre ++ EvMkdir (tmp_dir e) :: EvWriteFile (tmp_path e) buf ::
           EvPrint p o :: post /\
    (pre = [] \/ pre = [EvFetch (fileUrl b)]) /\
    files (snd (post_print e b w)) !! tmp_path e =
      (if existsb (fun ev => match ev with EvUnlink _ => true | _ => false end)
            post && unlink_ok e (tmp_path e)
       then None else Some buf).
Proof.
  intros Hm. pose proof (os_run_complete e b w Hm) as Hrun. unfold events_of.
  destruct Hrun; unfold_answers; case_oracles; norm_events;
    rewrite ?drop_all; simpl; intros Hin;
    repeat (destruct Hin as [Hin|Hin]; [try discriminate Hin|]);
    try contradiction;
    injection Hin as <- <-;
    (split; [reflexivity|]); (split; [reflexivity|]);
    first
      [ solve [ exists []; eexists _, _; split; [reflexivity|];
                split; [by left|];
                simpl; try destruct (unlink_ok e (tmp_path e)); simpl;
                rewrite ?lookup_delete_eq, ?lookup_insert_eq; reflexivity ]
      | solve [ exists [EvFetch (fileUrl b)]; eexists _, _; split; [reflexivity|];
                split; [by right|];
                simpl; try destruct (unlink_ok e (tmp_path e)); simpl;
                rewrite ?lookup_delete_eq, ?lookup_insert_eq; reflexivity ] ].
Qed.

Lemma spooler_called_on_written_file_witness :
  declared_mode job_os_other = Some OS /\
  Some (JStr "Office") =
  (if truthy (printerName job_os_other) then Some (printerName job_os_other)
   else None).
Proof.
  split; [reflexivity|].
  apply (spooler_called_on_written_file env_all_ok job_os_other empty_world
           (tmp_path env_all_ok) (Some (JStr "Office")));
    [reflexivity | vm_compute; auto].
Defined.
